(** * my_calculator_stream: a calculator driven by simulated key presses

    Shallow embedding of [src/flows/my_calculator_stream.py] and the
    properties of its specification.

    The script talks to the outside world only through library calls
    ([subprocess.run], [pyautogui.press], [pyautogui.hotkey], [pyperclip],
    [time.sleep], [print] and the orchestration decorators).  A run is
    modelled as the list of the calls it makes, in order, together with its
    outcome: a returned value or a raised exception.  What each external call
    answers is fixed by a [World], which may depend on everything that has
    happened so far; every theorem below quantifies over the world unless it
    says otherwise. *)

From Stdlib Require Import String Ascii List ZArith NArith Bool Lia.
Import ListNotations.

Local Open Scope list_scope.
Local Open Scope string_scope.

(** ** Python values *)

(** A [str] is modelled as a Rocq [string]; the character with code [n]
    stands for the code point [n] (the 8-bit range). *)

Module Str.

Definition code (c : ascii) : N := N_of_ascii c.

(** [str.isdigit] on one character: the decimal digits and the three
    superscript digits of the 8-bit range (U+00B2, U+00B3, U+00B9). *)
Definition isdigit (c : ascii) : bool :=
  let n := code c in
  ((48 <=? n) && (n <=? 57) || (n =? 178) || (n =? 179) || (n =? 185))%N.

(** [str.isspace] on one character: tab to carriage return, the four
    separators U+001C..U+001F, space, NEL and the no-break space. *)
Definition isspace (c : ascii) : bool :=
  let n := code c in
  ((9 <=? n) && (n <=? 13) || (28 <=? n) && (n <=? 32)
   || (n =? 133) || (n =? 160))%N.

Fixpoint chars (s : string) : list ascii :=
  match s with
  | EmptyString => []
  | String c s' => c :: chars s'
  end.

Fixpoint of_chars (l : list ascii) : string :=
  match l with
  | [] => EmptyString
  | c :: l' => String c (of_chars l')
  end.

(** A one-character string, as iterating over a [str] yields. *)
Definition single (c : ascii) : string := String c EmptyString.

Fixpoint lstrip (s : string) : string :=
  match s with
  | EmptyString => EmptyString
  | String c s' => if isspace c then lstrip s' else s
  end.

Definition is_empty (s : string) : bool :=
  match s with EmptyString => true | _ => false end.

Fixpoint rstrip (s : string) : string :=
  match s with
  | EmptyString => EmptyString
  | String c s' =>
      let r := rstrip s' in
      if isspace c && is_empty r then EmptyString else String c r
  end.

(** [s.strip()] *)
Definition strip (s : string) : string := rstrip (lstrip s).

(** [s.replace(old, new)]: every occurrence of [old], found left to right
    without overlap, becomes [new].  [skip] counts the characters of a
    matched occurrence still to be dropped. *)
Fixpoint replace_from (old new : string) (skip : nat) (s : string) : string :=
  match s with
  | EmptyString => EmptyString
  | String c s' =>
      match skip with
      | S k => replace_from old new k s'
      | O =>
          if prefix old s
          then new ++ replace_from old new (pred (String.length old)) s'
          else String c (replace_from old new 0 s')
      end
  end.

Fixpoint intersperse_after (new s : string) : string :=
  match s with
  | EmptyString => EmptyString
  | String c s' => String c (new ++ intersperse_after new s')
  end.

Definition replace (s old new : string) : string :=
  match old with
  | EmptyString => new ++ intersperse_after new s
  | _ => replace_from old new 0 s
  end.

(** The double quote, for command lines that contain one. *)
Definition dquote : string := single (ascii_of_nat 34).

End Str.

#[local] Set Warnings "-register-all".

(** Dictionaries keep insertion order: association lists. *)
Inductive Value : Type :=
| VStr (s : string)
| VInt (n : Z)
| VList (l : list Value)
| VDict (d : list (string * Value)).

Definition Dict : Type := list (string * Value).

Fixpoint dict_get (d : Dict) (k : string) : option Value :=
  match d with
  | [] => None
  | (k', v) :: d' => if String.eqb k k' then Some v else dict_get d' k
  end.

(** [d.get(k, default)] *)
Definition dict_get_default (d : Dict) (k : string) (default : Value) : Value :=
  match dict_get d k with
  | Some v => v
  | None => default
  end.

(** ** Exceptions *)

Inductive ExnClass : Type :=
| NameError
| ImportError
| ModuleNotFoundError            (* a subclass of ImportError *)
| CalledProcessError
| OtherException (name : string) (* any other subclass of Exception *)
| BaseOnly (name : string).      (* KeyboardInterrupt, SystemExit, ... *)

Record Exn : Type := mkExn { exn_class : ExnClass; exn_str : string }.

(** [except Exception] *)
Definition isinstance_Exception (e : Exn) : bool :=
  match exn_class e with
  | BaseOnly _ => false
  | _ => true
  end.

(** [except ImportError] *)
Definition isinstance_ImportError (e : Exn) : bool :=
  match exn_class e with
  | ImportError | ModuleNotFoundError => true
  | _ => false
  end.

(** A bare [except:] *)
Definition any_exception (e : Exn) : bool := true.

(** What reading a name that no scope binds raises. *)
Definition name_error (name : string) : Exn :=
  mkExn NameError ("name '" ++ name ++ "' is not defined").

Inductive Result (A : Type) : Type :=
| Ok (a : A)
| Raise (e : Exn).
Arguments Ok {A} a.
Arguments Raise {A} e.

(** ** Calls to the outside, and the world that answers them *)

Inductive Event : Type :=
| Stdout (s : string)                      (* print(s) *)
| Sleep (ms : N)                          (* time.sleep, in milliseconds *)
| SubprocessRun (args : list string)      (* subprocess.run(args, check=True) *)
| Press (key : string)                    (* pyautogui.press(key) *)
| Hotkey (keys : list string)             (* pyautogui.hotkey( *keys ) *)
| ImportPyperclip                         (* import pyperclip *)
| Paste                                   (* pyperclip.paste() *)
| LogInfo (s : string)                    (* logger.info(s) *)
| LogError (s : string)                   (* logger.error(s) *)
| MapCall (task : string) (args : list string)   (* task.map(args) *)
| TaskAttempt (task : string) (arg : string)     (* one execution of a task body *)
| RetryDelay (seconds : N).                      (* the wait before a retry *)

Definition Trace : Type := list Event.

(** [w_fault h ev]: whether the call [ev], made after the history [h],
    raises.  [w_paste h]: the clipboard text read after [h].
    [w_kwargs h x]: what reading [future.kwargs] gives, after [h], on the
    future of the task run mapped over [x] (the attribute belongs to the
    orchestration library, not to this script). *)
Record World : Type := mkWorld {
  w_fault : Trace -> Event -> option Exn;
  w_paste : Trace -> string;
  w_kwargs : Trace -> string -> Exn + Dict
}.

(** ** Computations

    A computation reads the history so far and gives the calls it makes and
    its outcome.  The history only ever grows. *)

Definition M (A : Type) : Type := Trace -> Trace * Result A.

Definition ret {A} (a : A) : M A := fun _ => ([], Ok a).

Definition raise {A} (e : Exn) : M A := fun _ => ([], Raise e).

Definition bind {A B} (m : M A) (f : A -> M B) : M B :=
  fun h =>
    let (o1, r) := m h in
    match r with
    | Ok a => let (o2, r2) := f a (h ++ o1)%list in ((o1 ++ o2)%list, r2)
    | Raise e => (o1, Raise e)
    end.

Notation "x <- m ;; k" := (bind m (fun x => k))
  (at level 61, m at next level, right associativity).
Notation "m ;; k" := (bind m (fun _ => k))
  (at level 61, right associativity).

(** [try: m except <catches> as e: handler e] *)
Definition try_except {A} (m : M A) (catches : Exn -> bool) (handler : Exn -> M A) : M A :=
  fun h =>
    let (o1, r) := m h in
    match r with
    | Ok a => (o1, Ok a)
    | Raise e =>
        if catches e
        then let (o2, r2) := handler e (h ++ o1)%list in ((o1 ++ o2)%list, r2)
        else (o1, Raise e)
    end.

(** [try: m finally: fin]: [fin] runs on every exit of [m]; when [fin]
    raises, its exception replaces the outcome of [m]. *)
Definition try_finally {A} (m : M A) (fin : M unit) : M A :=
  fun h =>
    let (o1, r) := m h in
    let (o2, rf) := fin (h ++ o1)%list in
    ((o1 ++ o2)%list,
     match rf with
     | Ok _ => r
     | Raise e => Raise e
     end).

(** A call that leaves a mark and cannot fail ([print], [time.sleep], the
    logger). *)
Definition emit (ev : Event) : M unit := fun _ => ([ev], Ok tt).

(** A call that the world may make fail. *)
Definition external (w : World) (ev : Event) : M unit :=
  fun h =>
    ([ev], match w_fault w h ev with
           | Some e => Raise e
           | None => Ok tt
           end).

Definition events {A} (run : Trace * Result A) : Trace := fst run.
Definition outcome {A} (run : Trace * Result A) : Result A := snd run.

Definition print (s : string) : M unit := emit (Stdout s).
Definition time_sleep (ms : N) : M unit := emit (Sleep ms).
Definition subprocess_run (w : World) (args : list string) : M unit :=
  external w (SubprocessRun args).
Definition pyautogui_press (w : World) (key : string) : M unit :=
  external w (Press key).
Definition pyautogui_hotkey (w : World) (keys : list string) : M unit :=
  external w (Hotkey keys).
Definition import_pyperclip (w : World) : M unit := external w ImportPyperclip.
Definition pyperclip_paste (w : World) : M string :=
  fun h =>
    ([Paste], match w_fault w h Paste with
              | Some e => Raise e
              | None => Ok (w_paste w h)
              end).

(** [for x in xs: body x] *)
Fixpoint for_each {A} (body : A -> M unit) (xs : list A) : M unit :=
  match xs with
  | [] => ret tt
  | x :: xs' => body x ;; for_each body xs'
  end.

(** ** The module's global names

    [perform_calculation] calls [get_run_logger] and the flow reads
    [total_count]; the module imports [time], [subprocess], [pyautogui],
    [flow] and [task] and defines its own functions, so it binds neither
    name.  The functions below take the bindings of these two names as an
    argument; [module_globals] is what the module really has. *)

Record Globals : Type := mkGlobals {
  g_get_run_logger : bool;        (* is [get_run_logger] bound to a logger factory *)
  g_total_count : option Value    (* the value of [total_count], when bound *)
}.

Definition module_globals : Globals := mkGlobals false None.

Definition get_run_logger (g : Globals) : M unit :=
  if g_get_run_logger g then ret tt else raise (name_error "get_run_logger").

Definition load_total_count (g : Globals) : M Value :=
  match g_total_count g with
  | Some v => ret v
  | None => raise (name_error "total_count")
  end.

Definition logger_info (s : string) : M unit := emit (LogInfo s).
Definition logger_error (s : string) : M unit := emit (LogError s).

(** ** macOS-specific RPA functions (lines 8-67) *)

Definition activate_command : list string :=
  ["osascript"; "-e";
   "tell application " ++ Str.dquote ++ "Calculator" ++ Str.dquote ++ " to activate"].

Definition quit_command : list string :=
  ["osascript"; "-e";
   "tell application " ++ Str.dquote ++ "Calculator" ++ Str.dquote ++ " to quit"].

Definition open_calculator (w : World) : M unit :=
  print "Opening macOS Calculator...";;
  subprocess_run w activate_command;;
  time_sleep 2000.

Definition close_calculator (w : World) : M unit :=
  print "Closing macOS Calculator...";;
  subprocess_run w quit_command.

Definition hands_press_key (w : World) (key : string) : M unit :=
  pyautogui_press w key;;
  time_sleep 100.

Definition key_mapping : list (string * string) :=
  [("+", "+"); ("-", "-"); ("*", "*"); ("/", "/")].

Fixpoint lookup_key (m : list (string * string)) (k : string) : option string :=
  match m with
  | [] => None
  | (k', v) :: m' => if String.eqb k k' then Some v else lookup_key m' k
  end.

(** The body of the loop of lines 41-46, for one character. *)
Definition type_char (w : World) (char : ascii) : M unit :=
  (if Str.isdigit char then pyautogui_press w (Str.single char)
   else match lookup_key key_mapping (Str.single char) with
        | Some key => pyautogui_press w key
        | None => ret tt
        end);;
  time_sleep 100.

(** Lines 39-46: the expression, character by character, as key presses. *)
Definition input_driver (w : World) (expression : string) : M unit :=
  for_each (type_char w) (Str.chars expression).

(** Lines 59-67: the clipboard text, cleaned, or the sentinel text when
    [pyperclip] cannot be imported. *)
Definition read_clipboard (w : World) : M string :=
  try_except
    (import_pyperclip w;;
     result <- pyperclip_paste w;;
     ret (Str.replace (Str.strip result) "," EmptyString))
    isinstance_ImportError
    (fun _ =>
       print "Install 'pyperclip' to read the clipboard result.";;
       ret "Result_Read_Error").

(** Lines 56-67: copy the display to the clipboard and read it back. *)
Definition result_reader (w : World) : M string :=
  pyautogui_hotkey w ["command"; "c"];;
  time_sleep 500;;
  read_clipboard w.

Definition perform_calculation_rpa (w : World) (expression : string) : M string :=
  hands_press_key w "c";;
  input_driver w expression;;
  pyautogui_press w "=";;
  time_sleep 1000;;
  result_reader w.

(** ** The task (lines 73-99) *)

Definition success_outcome (expression result : string) : Value :=
  VDict [("expression", VStr expression); ("status", VStr "success");
         ("result", VStr result)].

Definition perform_calculation_fn (g : Globals) (w : World) (expression : string) : M Value :=
  get_run_logger g;;
  logger_info ("Attempting calculation: " ++ expression);;
  try_except
    (result <- perform_calculation_rpa w expression;;
     hands_press_key w "c";;
     time_sleep 500;;
     logger_info ("Successfully calculated " ++ expression ++ " = " ++ result);;
     ret (success_outcome expression result))
    isinstance_Exception
    (fun e =>
       logger_error ("Failed calculation " ++ expression ++ ": " ++ exn_str e);;
       raise e).

(** ** The orchestration layer *)

(** What the [@task] decorator records about a function. *)
Record Task : Type := mkTask {
  task_name : string;
  task_retries : nat;
  task_retry_delay_seconds : N;
  task_fn : string -> M Value
}.

(** Line 73. *)
Definition perform_calculation (g : Globals) (w : World) : Task :=
  mkTask "perform_single_calculation" 3 5 (perform_calculation_fn g w).

(** Modelled from the spec: the retry loop belongs to the orchestration
    library, which is not part of this repository.  Following section 4.4, an
    exception of the task body goes to the orchestration layer, which runs
    the body again after the fixed delay, as many times as the task is
    configured for; once the retries are used up the last exception is the
    task's terminal failure.  [TaskAttempt] marks each execution of the body
    and [RetryDelay] each wait. *)
Fixpoint run_attempts (t : Task) (x : string) (retries_left : nat) : M Value :=
  emit (TaskAttempt (task_name t) x);;
  match retries_left with
  | O => task_fn t x
  | S k =>
      try_except (task_fn t x) any_exception
        (fun _ =>
           emit (RetryDelay (task_retry_delay_seconds t));;
           run_attempts t x k)
  end.

Definition run_task (t : Task) (x : string) : M Value :=
  run_attempts t x (task_retries t).

(** A future: the mapped argument and the final state of its task run. *)
Record Future : Type := mkFuture {
  fut_arg : string;
  fut_state : Result Value
}.

(** Modelled from the spec: submitting a task run never raises in the flow;
    the run's outcome waits in the future.  The orchestration layer is free
    to run the task runs one after the other or interleaved; the model takes
    one of its schedules, submission order with each run finished before the
    next starts.  The order of calls across different task runs is therefore
    a choice of the model, and no property below speaks of it. *)
Definition submit (t : Task) (x : string) : M Future :=
  fun h => let (o, r) := run_task t x h in (o, Ok (mkFuture x r)).

Fixpoint submit_all (t : Task) (xs : list string) : M (list Future) :=
  match xs with
  | [] => ret []
  | x :: xs' =>
      f <- submit t x;;
      fs <- submit_all t xs';;
      ret (f :: fs)
  end.

(** [t.map(xs)]: the call itself may fail, as the world decides. *)
Definition task_map (w : World) (t : Task) (xs : list string) : M (list Future) :=
  external w (MapCall (task_name t) xs);;
  submit_all t xs.

(** [future.result()] *)
Definition future_result (f : Future) : M Value :=
  match fut_state f with
  | Ok v => ret v
  | Raise e => raise e
  end.

(** [future.kwargs] *)
Definition future_kwargs (w : World) (f : Future) : M Dict :=
  fun h =>
    ([], match w_kwargs w h (fut_arg f) with
         | inl e => Raise e
         | inr d => Ok d
         end).

(** ** The flow (lines 105-149) *)

Definition failed_outcome (calc_expression : Value) (e : Exn) : Value :=
  VDict [("expression", calc_expression); ("status", VStr "failed");
         ("error", VStr (exn_str e))].

(** Lines 124-131; [results] is the list built so far. *)
Fixpoint collect_results (w : World) (result_futures : list Future)
    (results : list Value) : M (list Value) :=
  match result_futures with
  | [] => ret results
  | future :: rest =>
      results' <-
        try_except
          (v <- future_result future;;
           ret (results ++ [v])%list)
          isinstance_Exception
          (fun e =>
             kwargs <- future_kwargs w future;;
             let calc_expression :=
               dict_get_default kwargs "expression" (VStr "Unknown") in
             ret (results ++ [failed_outcome calc_expression e])%list);;
      collect_results w rest results'
  end.

(** Line 133. *)
Definition return_value (g : Globals) (results : list Value) : M Value :=
  total_count <- load_total_count g;;
  ret (VDict [("status", VStr "completed");
              ("total_calculations", total_count);
              ("results", VList results)]).

(** Lines 121-133: the body of the [try]. *)
Definition dispatch_and_collect (g : Globals) (w : World)
    (calculations : list string) (results : list Value) : M Value :=
  result_futures <- task_map w (perform_calculation g w) calculations;;
  results' <- collect_results w result_futures results;;
  return_value g results'.

(** Lines 135-145: the [except Exception as e] clause. *)
Definition on_failure (w : World) (e : Exn) : M Value :=
  print ("Automation failed: " ++ exn_str e);;
  try_except (close_calculator w) any_exception (fun _ => ret tt);;
  raise e.

Definition calculator_automation_stream (g : Globals) (w : World)
    (calculations : list string) : M Value :=
  open_calculator w;;
  let results := [] in
  try_finally
    (try_except (dispatch_and_collect g w calculations results)
       isinstance_Exception (on_failure w))
    (close_calculator w).

(** ** Reading a run *)

Definition is_close (ev : Event) : bool :=
  match ev with
  | SubprocessRun args => if list_eq_dec string_dec args quit_command then true else false
  | _ => false
  end.

(** How many times the run asked the application to quit. *)
Definition close_count (t : Trace) : nat := List.length (filter is_close t).

Definition is_press (ev : Event) : bool :=
  match ev with
  | Press _ => true
  | _ => false
  end.

(** The key presses of a run, in order. *)
Definition key_events (t : Trace) : Trace := filter is_press t.

(** Worlds used as concrete inputs below. *)

Definition no_kwargs : string -> Dict := fun _ => [].

(** Nothing fails; the clipboard holds [clip]; a future's [kwargs] holds
    nothing, the task having been mapped over a positional argument. *)
Definition calm_world (clip : string) : World :=
  mkWorld (fun _ _ => None) (fun _ => clip) (fun _ x => inr (no_kwargs x)).

Definition command_failed (args : list string) : Exn :=
  mkExn CalledProcessError
    ("Command '" ++ String.concat " " args ++ "' returned non-zero exit status 1.").

(** The application cannot be launched. *)
Definition open_fails_world : World :=
  mkWorld
    (fun _ ev =>
       match ev with
       | SubprocessRun args =>
           if list_eq_dec string_dec args activate_command
           then Some (command_failed args) else None
       | _ => None
       end)
    (fun _ => EmptyString) (fun _ x => inr (no_kwargs x)).

(** Mapping the task fails before any task run exists. *)
Definition dispatch_fails_world : World :=
  mkWorld
    (fun _ ev =>
       match ev with
       | MapCall _ _ => Some (mkExn (OtherException "RuntimeError") "cannot submit task runs")
       | _ => None
       end)
    (fun _ => EmptyString) (fun _ x => inr (no_kwargs x)).

(** Every request to quit the application fails. *)
Definition close_fails_world : World :=
  mkWorld
    (fun _ ev => if is_close ev then Some (command_failed quit_command) else None)
    (fun _ => EmptyString) (fun _ x => inr (no_kwargs x)).

(** The user interrupts the program while the tasks are mapped. *)
Definition interrupted_world : World :=
  mkWorld
    (fun _ ev =>
       match ev with
       | MapCall _ _ => Some (mkExn (BaseOnly "KeyboardInterrupt") EmptyString)
       | _ => None
       end)
    (fun _ => EmptyString) (fun _ x => inr (no_kwargs x)).

(** ** The vocabulary of the statements *)

(** The operators of the specification. *)
Definition is_operator (c : ascii) : bool :=
  existsb (Ascii.eqb c) ["+"; "-"; "*"; "/"]%char.

(** The characters the input driver has a key for. *)
Definition recognised (c : ascii) : bool := Str.isdigit c || is_operator c.

(** The key press that stands for a character. *)
Definition key_of (c : ascii) : Event := Press (Str.single c).

(** The cleaning of the clipboard text, in the words of the specification:
    surrounding whitespace removed, then commas removed. *)
Module Spec.

Fixpoint drop_spaces (l : list ascii) : list ascii :=
  match l with
  | [] => []
  | c :: l' => if Str.isspace c then drop_spaces l' else l
  end.

Definition without_surrounding_whitespace (s : string) : string :=
  Str.of_chars (rev (drop_spaces (rev (drop_spaces (Str.chars s))))).

Definition without_commas (s : string) : string :=
  Str.of_chars (filter (fun c => negb (Ascii.eqb c ","%char)) (Str.chars s)).

Definition cleaned (s : string) : string :=
  without_commas (without_surrounding_whitespace s).

End Spec.

(** [pyperclip] is not installed. *)
Definition no_pyperclip_world : World :=
  mkWorld
    (fun _ ev =>
       match ev with
       | ImportPyperclip =>
           Some (mkExn ModuleNotFoundError "No module named 'pyperclip'")
       | _ => None
       end)
    (fun _ => EmptyString) (fun _ x => inr (no_kwargs x)).

(** The key press library refuses every key. *)
Definition stuck_keyboard_world : World :=
  mkWorld
    (fun _ ev =>
       match ev with
       | Press _ => Some (mkExn (OtherException "FailSafeException") "fail-safe triggered")
       | _ => None
       end)
    (fun _ => EmptyString) (fun _ x => inr (no_kwargs x)).

(** The marks the orchestration layer leaves in a run. *)
Definition is_orchestration (ev : Event) : bool :=
  match ev with
  | TaskAttempt _ _ | RetryDelay _ => true
  | _ => false
  end.

(** The attempts and waits of a run, in order. *)
Definition schedule (t : Trace) : Trace := filter is_orchestration t.

(** A computation that leaves no such mark of its own. *)
Definition silent {A} (m : M A) : Prop :=
  forall h, schedule (events (m h)) = [].

(** An attempt followed by [n] retries, each after a wait of [d] seconds. *)
Fixpoint retry_schedule (name x : string) (d : N) (n : nat) : Trace :=
  match n with
  | O => [TaskAttempt name x]
  | S k => TaskAttempt name x :: RetryDelay d :: retry_schedule name x d k
  end.

(** What one call of [close_calculator] leaves in a run. *)
Definition close_events : Trace :=
  [Stdout "Closing macOS Calculator..."; SubprocessRun quit_command].

(** What the input driver does for one character when no key press fails. *)
Definition typed (c : ascii) : Trace :=
  if recognised c then [key_of c; Sleep 100] else [Sleep 100].

(** The calls of one undisturbed calculation on the application, from the
    first clearing of the display to the reading of the clipboard. *)
Definition rpa_events (expression : string) : Trace :=
  ([Press "c"; Sleep 100]
   ++ flat_map typed (Str.chars expression)
   ++ [Press "="; Sleep 1000; Hotkey ["command"; "c"]; Sleep 500;
       ImportPyperclip; Paste])%list.

(** The module with both missing names bound: [get_run_logger] to a logger
    factory and [total_count] to the number of expressions. *)
Definition repaired_globals (calculations : list string) : Globals :=
  mkGlobals true (Some (VInt (Z.of_nat (List.length calculations)))).

(** ** More vocabulary: the flow, the collecting loop and the pauses *)

(** Lines 117-145: the [try] body under its [except Exception] clause. *)
Definition guarded_body (g : Globals) (w : World) (calculations : list string) : M Value :=
  try_except (dispatch_and_collect g w calculations [])
    isinstance_Exception (on_failure w).

(** What the [except] clause of the flow adds to a run whose [try] body
    ended with [r]. *)
Definition failure_report (r : Result Value) : Trace :=
  match r with
  | Ok _ => []
  | Raise e =>
      if isinstance_Exception e
      then Stdout ("Automation failed: " ++ exn_str e) :: close_events
      else []
  end.

(** The exception, if any, with which the collecting loop stops at the
    future [f]: a failure of the task that [except Exception] does not catch,
    or a failure to read [future.kwargs] while a caught one is recorded. *)
Definition abort_of (w : World) (h : Trace) (f : Future) : option Exn :=
  match fut_state f with
  | Ok _ => None
  | Raise e =>
      if isinstance_Exception e
      then match w_kwargs w h (fut_arg f) with
           | inl e' => Some e'
           | inr _ => None
           end
      else Some e
  end.

(** The entry the collecting loop appends for the future [f]. *)
Definition recorded_entry (w : World) (h : Trace) (f : Future) : Value :=
  match fut_state f with
  | Ok v => v
  | Raise e =>
      match w_kwargs w h (fut_arg f) with
      | inr kwargs =>
          failed_outcome (dict_get_default kwargs "expression" (VStr "Unknown")) e
      | inl _ => failed_outcome (VStr "Unknown") e
      end
  end.

(** The pauses of a run added up, in milliseconds. *)
Fixpoint sleep_total (t : Trace) : N :=
  match t with
  | [] => 0
  | Sleep ms :: t' => ms + sleep_total t'
  | _ :: t' => sleep_total t'
  end.

Definition contains_comma (s : string) : bool :=
  existsb (Ascii.eqb ","%char) (Str.chars s).

(** The text neither starts nor ends with whitespace. *)
Definition no_surrounding_whitespace (s : string) : bool :=
  match Str.chars s with
  | [] => true
  | c :: l => negb (Str.isspace c) && negb (Str.isspace (last l c))
  end.

(** A computation none of whose calls satisfies [P]. *)
Definition avoids {A} (P : Event -> bool) (m : M A) : Prop :=
  forall h, filter P (events (m h)) = [].

(** [pyperclip] is installed but cannot reach a clipboard. *)
Definition broken_clipboard_world : World :=
  mkWorld
    (fun _ ev =>
       match ev with
       | Paste => Some (mkExn (OtherException "PyperclipException")
                          "could not find a copy/paste mechanism")
       | _ => None
       end)
    (fun _ => EmptyString) (fun _ x => inr (no_kwargs x)).

(** A future's [kwargs] holds the mapped expression under its name. *)
Definition named_kwargs_world : World :=
  mkWorld (fun _ _ => None) (fun _ => EmptyString)
    (fun _ x => inr [("expression", VStr x)]).

(** The key that clears the display stops working once the clipboard has
    been read. *)
Definition clear_fails_after_reading_world : World :=
  mkWorld
    (fun h ev =>
       match ev with
       | Press key =>
           if String.eqb key "c"
              && existsb (fun ev' => match ev' with Paste => true | _ => false end) h
           then Some (mkExn (OtherException "FailSafeException") "fail-safe triggered")
           else None
       | _ => None
       end)
    (fun _ => "2") (fun _ x => inr (no_kwargs x)).

(** [pyperclip] is installed, but reading the clipboard tries to import a
    module that is missing. *)
Definition paste_import_error_world : World :=
  mkWorld
    (fun _ ev =>
       match ev with
       | Paste => Some (mkExn ImportError "No module named 'AppKit'")
       | _ => None
       end)
    (fun _ => EmptyString) (fun _ x => inr (no_kwargs x)).



(** * Properties *)

Local Open Scope list_scope.

(** ** Computations: basic facts *)

(** Split on the run of the computation [m] that the goal mentions. *)
Ltac case_run m :=
  match goal with
  | |- context [m ?h] => destruct (m h) as [? [? | ?]]
  end.

Section Computations.

Context {A B : Type}.

Lemma bind_ok (m : M A) (f : A -> M B) h o a :
  m h = (o, Ok a) ->
  bind m f h = ((o ++ events (f a (h ++ o)))%list, outcome (f a (h ++ o)%list)).
Proof.
  intros Hm. unfold bind, events, outcome. rewrite Hm.
  destruct (f a (h ++ o)%list); reflexivity.
Qed.

Lemma events_bind_ok (m : M A) (f : A -> M B) h o a :
  m h = (o, Ok a) ->
  events (bind m f h) = (o ++ events (f a (h ++ o)))%list.
Proof. intros Hm. now rewrite (bind_ok _ _ _ _ _ Hm). Qed.

Lemma outcome_bind_ok (m : M A) (f : A -> M B) h o a :
  m h = (o, Ok a) ->
  outcome (bind m f h) = outcome (f a (h ++ o)%list).
Proof. intros Hm. now rewrite (bind_ok _ _ _ _ _ Hm). Qed.

Lemma bind_raise (m : M A) (f : A -> M B) h o e :
  m h = (o, Raise e) -> bind m f h = (o, Raise e).
Proof. intros Hm. unfold bind. rewrite Hm. reflexivity. Qed.

(** A sequence whose second part always raises always raises. *)
Lemma bind_never_returns (m : M A) (f : A -> M B) :
  (forall a h, exists e, outcome (f a h) = Raise e) ->
  forall h, exists e, outcome (bind m f h) = Raise e.
Proof.
  intros Hf h. unfold bind, outcome.
  destruct (m h) as [o1 [a | e]]; [| now exists e].
  specialize (Hf a (h ++ o1)%list). unfold outcome in Hf.
  destruct (f a (h ++ o1)%list) as [o2 r2]. exact Hf.
Qed.

End Computations.

Lemma close_count_app (t1 t2 : Trace) :
  close_count (t1 ++ t2) = close_count t1 + close_count t2.
Proof. unfold close_count. now rewrite filter_app, length_app. Qed.

(** ** The cleanup of the flow *)

Lemma close_calculator_events (w : World) (h : Trace) :
  events (close_calculator w h) = close_events.
Proof.
  unfold close_calculator, bind, print, emit, subprocess_run, external, events.
  reflexivity.
Qed.

Lemma close_count_close_events : close_count close_events = 1.
Proof. reflexivity. Qed.

(** The [except] clause of the flow re-raises the exception it was entered
    with, whatever its own attempt to close the application does. *)
Lemma on_failure_reraises (w : World) (e : Exn) (h : Trace) :
  outcome (on_failure w e h) = Raise e.
Proof.
  unfold on_failure, bind, try_except, print, emit, raise, outcome.
  cbv beta iota. case_run (close_calculator w); reflexivity.
Qed.

Lemma open_calculator_events_no_close (w : World) (h : Trace) :
  close_count (events (open_calculator w h)) = 0.
Proof.
  unfold open_calculator, bind, print, emit, subprocess_run, external,
    time_sleep, events.
  simpl. destruct (w_fault w _ _); reflexivity.
Qed.

(** ** The unbound names *)

Lemma perform_calculation_fn_unbound_logger (w : World) (expression : string) (h : Trace) :
  perform_calculation_fn module_globals w expression h
  = ([], Raise (name_error "get_run_logger")).
Proof. reflexivity. Qed.

Lemma return_value_unbound (results : list Value) (h : Trace) :
  return_value module_globals results h = ([], Raise (name_error "total_count")).
Proof. reflexivity. Qed.

Lemma dispatch_and_collect_never_returns (w : World) calculations results h :
  exists e,
    outcome (dispatch_and_collect module_globals w calculations results h) = Raise e.
Proof.
  unfold dispatch_and_collect.
  apply bind_never_returns. intros futs h1.
  apply bind_never_returns. intros rs h2.
  rewrite return_value_unbound. now eexists.
Qed.

Lemma guarded_body_never_returns (w : World) calculations results h :
  exists e,
    outcome (try_except (dispatch_and_collect module_globals w calculations results)
               isinstance_Exception (on_failure w) h) = Raise e.
Proof.
  destruct (dispatch_and_collect_never_returns w calculations results h) as [e He].
  unfold try_except, outcome in *.
  destruct (dispatch_and_collect _ _ _ _ h) as [o1 r]. simpl in He. subst r.
  destruct (isinstance_Exception e); [| now exists e].
  pose proof (on_failure_reraises w e (h ++ o1)%list) as Hr. unfold outcome in Hr.
  destruct (on_failure w e (h ++ o1)) as [o2 r2]. simpl in *. now exists e.
Qed.

(** C10: on the module as it is written, every execution of the task body
    raises [NameError] on [get_run_logger] before it makes any call; the
    return expression of the flow raises [NameError] on [total_count]
    whatever the collected results are; and so, for every world and every list
    of expressions, the flow ends by raising and never returns a value. *)
Theorem calculator_automation_stream_never_returns :
  (forall w expression h,
      perform_calculation_fn module_globals w expression h
      = ([], Raise (name_error "get_run_logger")))
  /\ (forall results h,
         return_value module_globals results h
         = ([], Raise (name_error "total_count")))
  /\ (forall w calculations h,
         exists e,
           outcome (calculator_automation_stream module_globals w calculations h)
           = Raise e).
Proof.
  split; [exact perform_calculation_fn_unbound_logger |].
  split; [exact return_value_unbound |].
  intros w calculations h. unfold calculator_automation_stream.
  apply bind_never_returns. intros _ h1.
  destruct (guarded_body_never_returns w calculations [] h1) as [e He].
  unfold try_finally, outcome in *.
  destruct (try_except _ _ _ h1) as [o1 r]. simpl in He. subst r.
  case_run (close_calculator w); simpl; eauto.
Qed.

(** ** How often the application is closed *)

Lemma try_finally_events {A} (m : M A) (fin : M unit) (h : Trace) :
  events (try_finally m fin h)
  = events (m h) ++ events (fin (h ++ events (m h))).
Proof.
  unfold try_finally, events. destruct (m h) as [o1 r]. simpl.
  destruct (fin (h ++ o1)) as [o2 rf]. reflexivity.
Qed.

(** C1, as the code has it: when [open_calculator] returns, the flow asks
    the application to quit at least once, and that request, made by the
    [finally] clause, is the last thing the run does, whatever happened while
    the tasks were dispatched and collected; when [open_calculator] raises,
    the flow stops there with that exception and never asks the application
    to quit. *)
Theorem close_calculator_runs_once_opened (g : Globals) (w : World)
    (calculations : list string) (h : Trace) :
  let run := calculator_automation_stream g w calculations h in
  match outcome (open_calculator w h) with
  | Ok _ =>
      (exists before, events run = before ++ close_events)
      /\ 1 <= close_count (events run)
  | Raise e =>
      run = (events (open_calculator w h), Raise e)
      /\ close_count (events run) = 0
  end.
Proof.
  cbv zeta. unfold calculator_automation_stream.
  pose proof (open_calculator_events_no_close w h) as Hopen.
  destruct (open_calculator w h) as [o [[] | e]] eqn:Ho; unfold outcome; simpl snd.
  - rewrite (bind_ok _ _ _ _ _ Ho). unfold events at 1 3. simpl fst.
    rewrite try_finally_events, close_calculator_events.
    split.
    + eexists. now rewrite app_assoc.
    + rewrite !close_count_app, close_count_close_events. lia.
  - rewrite (bind_raise _ _ _ _ _ Ho). simpl. split; [reflexivity | exact Hopen].
Qed.

Lemma close_calculator_runs_once_opened_witness :
  1 <= close_count
         (events (calculator_automation_stream module_globals (calm_world "2")
                    ["1+1"%string] []))
  /\ close_count
       (events (calculator_automation_stream module_globals open_fails_world
                  ["1+1"%string] []))
     = 0.
Proof.
  split.
  - destruct (close_calculator_runs_once_opened module_globals (calm_world "2")
                ["1+1"%string] []) as [_ H].
    exact H.
  - destruct (close_calculator_runs_once_opened module_globals open_fails_world
                ["1+1"%string] []) as [_ H].
    exact H.
Defined.

(** C1 as stated fails: when the application cannot be launched the flow
    never asks it to quit, and when dispatching raises the flow asks it to
    quit twice, once in the [except] clause and once in the [finally]
    clause. *)
Lemma close_calculator_not_exactly_once :
  (close_count
     (events (calculator_automation_stream module_globals open_fails_world ["1+1"%string] []))
   = 0
   /\ close_count
        (events (calculator_automation_stream module_globals dispatch_fails_world ["1+1"%string] []))
      = 2)
  /\ ~ (forall w calculations,
           close_count
             (events (calculator_automation_stream module_globals w calculations []))
           = 1).
Proof.
  split; [split; vm_compute; reflexivity |].
  intros H. specialize (H open_fails_world ["1+1"%string]).
  vm_compute in H. discriminate H.
Qed.

(** An interruption that [except Exception] does not catch leaves the
    [finally] clause as the only cleanup. *)
Example interrupted_run_closes_once :
  close_count
    (events (calculator_automation_stream module_globals interrupted_world ["1+1"%string] []))
  = 1.
Proof. vm_compute. reflexivity. Qed.

(** ** What the caller of the flow receives *)

(** C2 on the code: with nothing failing in the world, for the empty list
    and for the two expressions of the specification's scenario, the flow
    raises [NameError] on [total_count] where the claim has it return the
    summary dictionary. *)
Theorem flow_raises_instead_of_summary :
  outcome (calculator_automation_stream module_globals (calm_world "2") [] [])
  = Raise (name_error "total_count")
  /\ outcome
       (calculator_automation_stream module_globals (calm_world "2")
          ["1+1"; "2*3"]%string [])
     = Raise (name_error "total_count").
Proof. split; vm_compute; reflexivity. Qed.

(** C4 on the code: for one expression and a world in which nothing fails,
    the collecting loop has built a list of one entry, the failed outcome of
    the task, when the flow raises [NameError] on [total_count]; no list
    reaches the caller. *)
Theorem results_list_never_returned :
  let w := calm_world "42" in
  let t := perform_calculation module_globals w in
  outcome ((futures <- task_map w t ["7*6"%string];;
            collect_results w futures []) [])
  = Ok [failed_outcome (VStr "Unknown") (name_error "get_run_logger")]
  /\ outcome (calculator_automation_stream module_globals w ["7*6"%string] [])
     = Raise (name_error "total_count").
Proof. cbv zeta. split; vm_compute; reflexivity. Qed.

(** C9 on the code: when every request to quit fails, the failure inside the
    [except] clause is swallowed but the one raised by the [finally] clause
    is what the caller receives, in place of the original [NameError]. *)
Theorem close_failure_reaches_caller :
  outcome (calculator_automation_stream module_globals close_fails_world [] [])
  = Raise (command_failed quit_command)
  /\ outcome
       (try_except (dispatch_and_collect module_globals close_fails_world [] [])
          isinstance_Exception (on_failure close_fails_world) [])
     = Raise (name_error "total_count").
Proof. split; vm_compute; reflexivity. Qed.

(** C3 on the code: the task body run on ["1+1"] makes no call at all and
    raises [NameError] on [get_run_logger]; the whole task run, retries
    included, presses no key. *)
Theorem perform_calculation_presses_nothing :
  let w := calm_world "2" in
  perform_calculation_fn module_globals w "1+1" []
  = ([], Raise (name_error "get_run_logger"))
  /\ key_events (events (run_task (perform_calculation module_globals w) "1+1" [])) = []
  /\ outcome (run_task (perform_calculation module_globals w) "1+1" [])
     = Raise (name_error "get_run_logger").
Proof. cbv zeta. repeat split; vm_compute; reflexivity. Qed.

(** ** Laws of sequencing *)

Section Laws.

Context {A B C : Type}.

Lemma bind_ret_l (a : A) (f : A -> M B) (h : Trace) :
  bind (ret a) f h = f a h.
Proof.
  unfold bind, ret. rewrite app_nil_r. destruct (f a h); reflexivity.
Qed.

Lemma bind_ext (m : M A) (f f' : A -> M B) (h : Trace) :
  (forall a h', f a h' = f' a h') -> bind m f h = bind m f' h.
Proof.
  intros Hf. unfold bind. destruct (m h) as [o1 [a | e]]; [| reflexivity].
  now rewrite Hf.
Qed.

(** Replacing the first computation by one that runs alike. *)
Lemma bind_ext_first (m m' : M A) (f : A -> M B) (h : Trace) :
  (forall h', m h' = m' h') -> bind m f h = bind m' f h.
Proof. intros Hm. unfold bind. now rewrite Hm. Qed.

Lemma bind_assoc (m : M A) (f : A -> M B) (k : B -> M C) (h : Trace) :
  bind (bind m f) k h = bind m (fun a => bind (f a) k) h.
Proof.
  unfold bind. destruct (m h) as [o1 [a | e]]; [| reflexivity].
  destruct (f a (h ++ o1)) as [o2 [b | e]]; [| reflexivity].
  rewrite <- app_assoc. destruct (k b (h ++ o1 ++ o2)) as [o3 r3].
  now rewrite app_assoc.
Qed.

End Laws.

Lemma for_each_app {A} (body : A -> M unit) (xs ys : list A) (h : Trace) :
  for_each body (xs ++ ys) h
  = (for_each body xs;; for_each body ys) h.
Proof.
  revert h. induction xs as [| x xs IH]; intros h; simpl.
  - now rewrite bind_ret_l.
  - rewrite bind_assoc. apply bind_ext. intros _ h'. apply IH.
Qed.

(** ** The input driver *)

Lemma chars_append (s1 s2 : string) :
  Str.chars (s1 ++ s2)%string = Str.chars s1 ++ Str.chars s2.
Proof. induction s1 as [| c s1 IH]; simpl; [reflexivity | now rewrite IH]. Qed.

Lemma key_events_app (t1 t2 : Trace) :
  key_events (t1 ++ t2) = key_events t1 ++ key_events t2.
Proof. apply filter_app. Qed.

(** [key_mapping] has exactly the four operators, each mapped to itself. *)
Lemma lookup_key_operator (c : ascii) :
  lookup_key key_mapping (Str.single c)
  = if is_operator c then Some (Str.single c) else None.
Proof. destruct c as [[] [] [] [] [] [] [] []]; reflexivity. Qed.

Lemma type_char_recognised (w : World) (c : ascii) (h : Trace) :
  recognised c = true ->
  type_char w c h
  = match w_fault w h (key_of c) with
    | Some e => ([key_of c], Raise e)
    | None => ([key_of c; Sleep 100], Ok tt)
    end.
Proof.
  unfold recognised, type_char. intros Hc.
  assert (Hpress :
    (pyautogui_press w (Str.single c);; time_sleep 100) h
    = match w_fault w h (key_of c) with
      | Some e => ([key_of c], Raise e)
      | None => ([key_of c; Sleep 100], Ok tt)
      end).
  { unfold bind, pyautogui_press, external, time_sleep, emit, key_of.
    destruct (w_fault w h (Press (Str.single c))); reflexivity. }
  destruct (Str.isdigit c); [exact Hpress |].
  rewrite lookup_key_operator. simpl in Hc. rewrite Hc. exact Hpress.
Qed.

Lemma type_char_ignored (w : World) (c : ascii) (h : Trace) :
  recognised c = false -> type_char w c h = ([Sleep 100], Ok tt).
Proof.
  unfold recognised, type_char. intros Hc.
  apply orb_false_iff in Hc as [Hd Ho].
  rewrite Hd, lookup_key_operator, Ho. reflexivity.
Qed.

(** The keys pressed by the loop are those of the recognised characters, in
    order: always a prefix of them, all of them when the loop ends normally,
    and the loop ends normally when no key press fails. *)
Lemma for_each_type_char_keys (w : World) (l : list ascii) :
  forall h,
    let run := for_each (type_char w) l h in
    (exists rest,
        map key_of (filter recognised l) = key_events (events run) ++ rest)
    /\ (outcome run = Ok tt ->
        key_events (events run) = map key_of (filter recognised l))
    /\ ((forall h' k, w_fault w h' (Press k) = None) -> outcome run = Ok tt).
Proof.
  induction l as [| c l IH]; intros h; cbv zeta.
  - simpl. repeat split; auto. now exists [].
  - simpl for_each. simpl filter.
    destruct (recognised c) eqn:Hc.
    + pose proof (type_char_recognised w c h Hc) as Hrun.
      destruct (w_fault w h (key_of c)) as [e |] eqn:Hf.
      * rewrite (bind_raise _ _ _ _ _ Hrun). simpl.
        repeat split.
        -- now exists (map key_of (filter recognised l)).
        -- discriminate.
        -- intros Hq. unfold key_of in Hf. rewrite Hq in Hf. discriminate.
      * rewrite (events_bind_ok _ _ _ _ _ Hrun), (outcome_bind_ok _ _ _ _ _ Hrun).
        destruct (IH (h ++ [key_of c; Sleep 100])) as (Hpre & Hall & Hok).
        rewrite key_events_app. simpl.
        repeat split.
        -- destruct Hpre as [rest Hrest]. exists rest. now rewrite Hrest.
        -- intros Hout. now rewrite (Hall Hout).
        -- exact Hok.
    + pose proof (type_char_ignored w c h Hc) as Hrun.
      rewrite (events_bind_ok _ _ _ _ _ Hrun), (outcome_bind_ok _ _ _ _ _ Hrun).
      destruct (IH (h ++ [Sleep 100])) as (Hpre & Hall & Hok).
      rewrite key_events_app. simpl. auto.
Qed.

Lemma filter_all {A} (p : A -> bool) (l : list A) :
  forallb p l = true -> filter p l = l.
Proof.
  induction l as [| a l IH]; simpl; [reflexivity |].
  intros H. apply andb_true_iff in H as [Ha Hl]. now rewrite Ha, IH.
Qed.

(** C6: for an expression made only of digits and of the operators
    [+ - * /], the keys pressed by the input driver are always the first
    characters of the expression, one key per character and in the order of
    the characters; they are all the characters of the expression when the
    driver ends normally, which it does whenever no key press fails. *)
Theorem input_driver_one_key_per_char (w : World) (expression : string) (h : Trace) :
  forallb recognised (Str.chars expression) = true ->
  let run := input_driver w expression h in
  (exists rest,
      map key_of (Str.chars expression) = key_events (events run) ++ rest)
  /\ (outcome run = Ok tt ->
      key_events (events run) = map key_of (Str.chars expression))
  /\ ((forall h' k, w_fault w h' (Press k) = None) -> outcome run = Ok tt).
Proof.
  intros Hall. unfold input_driver.
  pose proof (for_each_type_char_keys w (Str.chars expression) h) as H.
  rewrite (filter_all _ _ Hall) in H. exact H.
Qed.

Lemma input_driver_one_key_per_char_witness :
  forallb recognised (Str.chars "12+3*4") = true
  /\ key_events (events (input_driver (calm_world EmptyString) "12+3*4" []))
     = [Press "1"; Press "2"; Press "+"; Press "3"; Press "*"; Press "4"]%string.
Proof.
  split; [reflexivity |].
  apply (input_driver_one_key_per_char (calm_world EmptyString) "12+3*4" []);
    reflexivity.
Defined.

(** C7: a character that is neither a digit nor one of [+ - * /] costs the
    driver its pause and nothing else: no key is pressed and nothing is
    raised; the driver then goes on with the characters that follow, exactly
    as it would have gone on after the pause; and a run that ends normally
    has pressed the keys of the characters before it followed by the keys of
    the characters after it. *)
Theorem input_driver_skips_other_chars (w : World) (pre post : string)
    (c : ascii) (h : Trace) :
  Str.isdigit c = false ->
  is_operator c = false ->
  type_char w c h = ([Sleep 100], Ok tt)
  /\ input_driver w (pre ++ String c post)%string h
     = (input_driver w pre;; time_sleep 100;; input_driver w post) h
  /\ (outcome (input_driver w (pre ++ String c post)%string h) = Ok tt ->
      key_events (events (input_driver w (pre ++ String c post)%string h))
      = map key_of (filter recognised (Str.chars pre))
        ++ map key_of (filter recognised (Str.chars post))).
Proof.
  intros Hd Ho.
  assert (Hc : recognised c = false) by (unfold recognised; now rewrite Hd, Ho).
  split; [now apply type_char_ignored |].
  split.
  - unfold input_driver. rewrite chars_append. simpl Str.chars.
    rewrite for_each_app. apply bind_ext. intros _ h'. simpl for_each.
    apply bind_ext_first. intros h''. now apply type_char_ignored.
  - intros Hout. unfold input_driver in *.
    destruct (for_each_type_char_keys w (Str.chars (pre ++ String c post)%string) h)
      as (_ & Hall & _).
    rewrite (Hall Hout), chars_append. simpl Str.chars.
    rewrite filter_app. simpl filter. rewrite Hc. now rewrite map_app.
Qed.

Lemma input_driver_skips_other_chars_witness :
  Str.isdigit "a" = false
  /\ is_operator "a" = false
  /\ key_events (events (input_driver (calm_world EmptyString) "1a+2" []))
     = [Press "1"; Press "+"; Press "2"]%string.
Proof.
  split; [reflexivity |]. split; [reflexivity |].
  apply (input_driver_skips_other_chars (calm_world EmptyString) "1" "+2" "a" []);
    reflexivity.
Defined.

(** ** The result reader *)

Lemma of_chars_chars (s : string) : Str.of_chars (Str.chars s) = s.
Proof. induction s as [| c s IH]; simpl; [reflexivity | now rewrite IH]. Qed.

Lemma chars_of_chars (l : list ascii) : Str.chars (Str.of_chars l) = l.
Proof. induction l as [| c l IH]; simpl; [reflexivity | now rewrite IH]. Qed.

Lemma lstrip_drop_spaces (s : string) :
  Str.chars (Str.lstrip s) = Spec.drop_spaces (Str.chars s).
Proof.
  induction s as [| c s IH]; simpl; [reflexivity |].
  destruct (Str.isspace c); [exact IH | reflexivity].
Qed.

Lemma drop_spaces_snoc (l : list ascii) (c : ascii) :
  Spec.drop_spaces (l ++ [c])
  = match Spec.drop_spaces l with
    | [] => if Str.isspace c then [] else [c]
    | d => d ++ [c]
    end.
Proof.
  induction l as [| a l IH]; simpl; [reflexivity |].
  destruct (Str.isspace a); [exact IH | reflexivity].
Qed.

Lemma rstrip_drop_spaces (s : string) :
  Str.chars (Str.rstrip s) = rev (Spec.drop_spaces (rev (Str.chars s))).
Proof.
  induction s as [| c s IH]; simpl; [reflexivity |].
  rewrite drop_spaces_snoc.
  destruct (Spec.drop_spaces (rev (Str.chars s))) as [| d ds] eqn:Hd.
  - simpl in IH. destruct (Str.rstrip s); [| discriminate IH].
    simpl. rewrite andb_true_r. destruct (Str.isspace c); reflexivity.
  - rewrite rev_app_distr. simpl rev at 1. simpl app.
    destruct (Str.rstrip s) as [| c' r] eqn:Hr.
    + exfalso. apply (f_equal (@List.length ascii)) in IH.
      rewrite length_rev in IH. discriminate IH.
    + simpl in IH |- *. rewrite andb_false_r. simpl. now rewrite IH.
Qed.

(** [strip] removes the surrounding whitespace and nothing else. *)
Lemma strip_without_surrounding_whitespace (s : string) :
  Str.strip s = Spec.without_surrounding_whitespace s.
Proof.
  unfold Str.strip, Spec.without_surrounding_whitespace.
  rewrite <- lstrip_drop_spaces, <- rstrip_drop_spaces.
  now rewrite of_chars_chars.
Qed.

(** Replacing [","] by the empty string removes the commas and nothing
    else. *)
Lemma replace_comma_without_commas (s : string) :
  Str.replace s "," EmptyString = Spec.without_commas s.
Proof.
  unfold Str.replace, Spec.without_commas.
  induction s as [| c s IH]; [reflexivity |].
  cbn [Str.replace_from Str.chars filter prefix String.length pred].
  destruct (ascii_dec "," c) as [Heq | Hne].
  - subst c. cbn [Ascii.eqb Bool.eqb negb]. simpl.
    destruct s; exact IH.
  - destruct (Ascii.eqb c ",") eqn:Hcmp.
    + apply Ascii.eqb_eq in Hcmp. congruence.
    + cbn [negb Str.of_chars]. now rewrite IH.
Qed.

(** The text returned on the normal path, in the specification's words. *)
Lemma cleaning_refines_spec (s : string) :
  Str.replace (Str.strip s) "," EmptyString = Spec.cleaned s.
Proof.
  unfold Spec.cleaned.
  now rewrite replace_comma_without_commas, strip_without_surrounding_whitespace.
Qed.

(** The cleaned text holds no comma. *)
Lemma cleaned_has_no_comma (s : string) :
  existsb (Ascii.eqb ","%char) (Str.chars (Spec.cleaned s)) = false.
Proof.
  unfold Spec.cleaned, Spec.without_commas. rewrite chars_of_chars.
  induction (Str.chars (Spec.without_surrounding_whitespace s)) as [| c l IH];
    cbn [filter]; [reflexivity |].
  destruct (Ascii.eqb c ",") eqn:Hc; cbn [negb]; [exact IH |].
  cbn [existsb]. rewrite Ascii.eqb_sym, Hc. exact IH.
Qed.

(** Whitespace is stripped before the commas are removed, so whitespace that
    stood next to a leading or trailing comma stays. *)
Example cleaned_may_keep_whitespace :
  Str.replace (Str.strip ", 1") "," EmptyString = " 1"%string.
Proof. reflexivity. Qed.

(** C8, as the code has it: reading the clipboard returns the clipboard
    text with its surrounding whitespace removed and its commas removed,
    whenever [pyperclip] can be imported and the paste succeeds; and when
    importing [pyperclip] raises [ImportError] it returns
    ["Result_Read_Error"], after printing a hint, and raises nothing.  The
    [except] clause of line 65 names [ImportError] and nothing else. *)
Theorem read_clipboard_cleans_or_degrades (w : World) (h : Trace) :
  (w_fault w h ImportPyperclip = None ->
   w_fault w (h ++ [ImportPyperclip]) Paste = None ->
   outcome (read_clipboard w h)
   = Ok (Spec.cleaned (w_paste w (h ++ [ImportPyperclip]))))
  /\ (forall e,
         w_fault w h ImportPyperclip = Some e ->
         isinstance_ImportError e = true ->
         read_clipboard w h
         = ([ImportPyperclip;
             Stdout "Install 'pyperclip' to read the clipboard result."],
            Ok "Result_Read_Error"%string)).
Proof.
  split.
  - intros Himport Hpaste.
    unfold read_clipboard, try_except, bind, import_pyperclip, external,
      pyperclip_paste, ret, outcome.
    rewrite Himport. cbv beta iota. rewrite Hpaste. cbv beta iota.
    now rewrite cleaning_refines_spec.
  - intros e Himport Hclass.
    unfold read_clipboard, try_except, bind, import_pyperclip, external,
      print, emit, ret.
    rewrite Himport, Hclass. reflexivity.
Qed.

(** C8 as stated fails: with [pyperclip] installed but no clipboard within
    its reach, the capability to read the clipboard is unavailable and yet no
    sentinel text comes back: the exception of the paste call leaves the
    clipboard block and the whole calculation. *)
Lemma read_clipboard_raises_without_clipboard :
  let e := mkExn (OtherException "PyperclipException")
             "could not find a copy/paste mechanism" in
  outcome (read_clipboard broken_clipboard_world []) = Raise e
  /\ outcome (read_clipboard broken_clipboard_world [])
     <> Ok "Result_Read_Error"%string
  /\ outcome (perform_calculation_rpa broken_clipboard_world "1+1" []) = Raise e.
Proof.
  cbv zeta. split; [reflexivity |]. split; [discriminate | reflexivity].
Qed.

Lemma read_clipboard_cleans_or_degrades_witness :
  outcome (read_clipboard (calm_world "  1,234,567 ") []) = Ok "1234567"%string
  /\ outcome (read_clipboard no_pyperclip_world []) = Ok "Result_Read_Error"%string.
Proof.
  split.
  - apply (read_clipboard_cleans_or_degrades (calm_world "  1,234,567 ") []);
      reflexivity.
  - destruct (read_clipboard_cleans_or_degrades no_pyperclip_world []) as [_ H].
    rewrite (H (mkExn ModuleNotFoundError "No module named 'pyperclip'")
               eq_refl eq_refl).
    reflexivity.
Defined.

(** ** Retries *)

Lemma emit_run (ev : Event) (h : Trace) : emit ev h = ([ev], Ok tt).
Proof. reflexivity. Qed.

Lemma try_except_caught {A} (m : M A) (catches : Exn -> bool)
    (handler : Exn -> M A) (h o : Trace) (e : Exn) :
  m h = (o, Raise e) ->
  catches e = true ->
  try_except m catches handler h
  = (o ++ events (handler e (h ++ o)), outcome (handler e (h ++ o))).
Proof.
  intros Hm Hc. unfold try_except, events, outcome. rewrite Hm, Hc.
  destruct (handler e (h ++ o)); reflexivity.
Qed.

Lemma schedule_app (t1 t2 : Trace) :
  schedule (t1 ++ t2) = schedule t1 ++ schedule t2.
Proof. apply filter_app. Qed.

Section Silent.

Context {A B : Type}.

Lemma silent_ret (a : A) : silent (ret a).
Proof. intros h. reflexivity. Qed.

Lemma silent_raise (e : Exn) : silent (@raise A e).
Proof. intros h. reflexivity. Qed.

Lemma silent_bind (m : M A) (f : A -> M B) :
  silent m -> (forall a, silent (f a)) -> silent (bind m f).
Proof.
  intros Hm Hf h. specialize (Hm h). unfold bind, events in *.
  destruct (m h) as [o1 [a | e]]; simpl in *; [| exact Hm].
  specialize (Hf a (h ++ o1)). unfold events in Hf.
  destruct (f a (h ++ o1)) as [o2 r2]. simpl in *.
  now rewrite schedule_app, Hm, Hf.
Qed.

Lemma silent_try_except (m : M A) (catches : Exn -> bool) (handler : Exn -> M A) :
  silent m -> (forall e, silent (handler e)) -> silent (try_except m catches handler).
Proof.
  intros Hm Hh h. specialize (Hm h). unfold try_except, events in *.
  destruct (m h) as [o1 [a | e]]; simpl in *; [exact Hm |].
  destruct (catches e); simpl; [| exact Hm].
  specialize (Hh e (h ++ o1)). unfold events in Hh.
  destruct (handler e (h ++ o1)) as [o2 r2]. simpl in *.
  now rewrite schedule_app, Hm, Hh.
Qed.

End Silent.

Lemma silent_emit (ev : Event) : is_orchestration ev = false -> silent (emit ev).
Proof. intros Hev h. unfold emit, events, schedule. simpl. now rewrite Hev. Qed.

Lemma silent_external (w : World) (ev : Event) :
  is_orchestration ev = false -> silent (external w ev).
Proof. intros Hev h. unfold external, events, schedule. simpl. now rewrite Hev. Qed.

Lemma silent_paste (w : World) : silent (pyperclip_paste w).
Proof. intros h. reflexivity. Qed.

Lemma silent_for_each {A} (body : A -> M unit) (xs : list A) :
  (forall x, silent (body x)) -> silent (for_each body xs).
Proof.
  intros Hbody. induction xs as [| x xs IH]; simpl.
  - apply silent_ret.
  - apply silent_bind; [apply Hbody | intros _; exact IH].
Qed.

Create HintDb silent.

#[local] Hint Resolve silent_ret silent_raise silent_paste silent_for_each : silent.
#[local] Hint Extern 1 (silent (bind _ _)) => apply silent_bind; [| intro] : silent.
#[local] Hint Extern 1 (silent (try_except _ _ _)) =>
  apply silent_try_except; [| intro] : silent.
#[local] Hint Extern 1 (silent (emit _)) => apply silent_emit; reflexivity : silent.
#[local] Hint Extern 1 (silent (external _ _)) =>
  apply silent_external; reflexivity : silent.

Lemma silent_hands_press_key (w : World) (key : string) : silent (hands_press_key w key).
Proof. unfold hands_press_key, pyautogui_press, time_sleep. auto with silent. Qed.

Lemma silent_type_char (w : World) (c : ascii) : silent (type_char w c).
Proof.
  unfold type_char, pyautogui_press, time_sleep.
  apply silent_bind; [| intro; auto with silent].
  destruct (Str.isdigit c); [auto with silent |].
  destruct (lookup_key key_mapping (Str.single c)); auto with silent.
Qed.

Lemma silent_perform_calculation_rpa (w : World) (expression : string) :
  silent (perform_calculation_rpa w expression).
Proof.
  pose proof (silent_hands_press_key w) as Hkey.
  pose proof (silent_type_char w) as Hchar.
  unfold perform_calculation_rpa, input_driver, result_reader, read_clipboard,
    pyautogui_press, pyautogui_hotkey, import_pyperclip, time_sleep, print.
  auto 10 with silent.
Qed.

(** The task body leaves the schedule to the orchestration layer. *)
Lemma silent_perform_calculation_fn (g : Globals) (w : World) (expression : string) :
  silent (perform_calculation_fn g w expression).
Proof.
  pose proof (silent_hands_press_key w) as Hkey.
  pose proof (silent_perform_calculation_rpa w expression) as Hrpa.
  unfold perform_calculation_fn, get_run_logger, logger_info, logger_error,
    time_sleep.
  apply silent_bind; [destruct (g_get_run_logger g); auto with silent | intro].
  auto 10 with silent.
Qed.

(** A task whose body always raises uses all its retries; the run ends with
    an exception. *)
Lemma run_attempts_always_failing (t : Task) (x : string) :
  silent (task_fn t x) ->
  (forall h, exists e, outcome (task_fn t x h) = Raise e) ->
  forall n h,
    schedule (events (run_attempts t x n h))
    = retry_schedule (task_name t) x (task_retry_delay_seconds t) n
    /\ exists e, outcome (run_attempts t x n h) = Raise e.
Proof.
  intros Hsilent Hfails n.
  induction n as [| n IH]; intros h; simpl run_attempts;
    rewrite (bind_ok _ _ _ _ _ (emit_run (TaskAttempt (task_name t) x) h));
    set (h1 := h ++ [TaskAttempt (task_name t) x]);
    destruct (Hfails h1) as [e He]; pose proof (Hsilent h1) as Hquiet;
    cbn [events outcome fst snd] in *.
  - rewrite schedule_app, Hquiet, He. split; [reflexivity | now exists e].
  - destruct (task_fn t x h1) as [o r] eqn:Hrun. simpl in He, Hquiet. subst r.
    rewrite (try_except_caught _ any_exception _ _ _ _ Hrun eq_refl).
    rewrite (bind_ok _ _ _ _ _
               (emit_run (RetryDelay (task_retry_delay_seconds t)) (h1 ++ o))).
    cbn [events outcome fst snd].
    destruct (IH ((h1 ++ o) ++ [RetryDelay (task_retry_delay_seconds t)]))
      as [Hsched He'].
    cbn [events outcome fst snd] in *.
    rewrite !schedule_app, Hquiet, Hsched. split; [reflexivity | exact He'].
Qed.

(** C5: a calculation task whose body raises on every attempt is executed
    four times, the first attempt and exactly three retries, with a wait of
    five seconds before each retry; the run then ends with an exception, which
    is what the task's future holds and what asking the future for its result
    raises. *)
Theorem perform_calculation_retried_three_times (g : Globals) (w : World)
    (expression : string) (h : Trace) :
  (forall h', exists e, outcome (perform_calculation_fn g w expression h') = Raise e) ->
  let t := perform_calculation g w in
  let attempt := TaskAttempt "perform_single_calculation" expression in
  schedule (events (run_task t expression h))
  = [attempt; RetryDelay 5; attempt; RetryDelay 5; attempt; RetryDelay 5; attempt]
  /\ exists e,
      outcome (run_task t expression h) = Raise e
      /\ outcome (submit t expression h) = Ok (mkFuture expression (Raise e))
      /\ forall h', future_result (mkFuture expression (Raise e)) h' = ([], Raise e).
Proof.
  intros Hfails. cbv zeta.
  destruct (run_attempts_always_failing (perform_calculation g w) expression
              (silent_perform_calculation_fn g w expression) Hfails 3 h)
    as [Hsched [e He]].
  split; [exact Hsched |].
  exists e. split; [exact He |]. split; [| reflexivity].
  unfold submit, run_task, outcome in *. simpl task_retries.
  destruct (run_attempts _ expression 3 h) as [o r]. simpl in *. now subst r.
Qed.

Lemma perform_calculation_retried_three_times_witness :
  let w := stuck_keyboard_world in
  let t := perform_calculation (mkGlobals true None) w in
  let attempt := TaskAttempt "perform_single_calculation" "1+1" in
  (forall h', exists e,
      outcome (perform_calculation_fn (mkGlobals true None) w "1+1" h') = Raise e)
  /\ schedule (events (run_task t "1+1" []))
     = [attempt; RetryDelay 5; attempt; RetryDelay 5; attempt; RetryDelay 5; attempt].
Proof.
  cbv zeta.
  assert (Hfails : forall h', exists e,
             outcome (perform_calculation_fn (mkGlobals true None)
                        stuck_keyboard_world "1+1" h') = Raise e).
  { intros h'. eexists. reflexivity. }
  split; [exact Hfails |].
  apply (perform_calculation_retried_three_times (mkGlobals true None)
           stuck_keyboard_world "1+1" [] Hfails).
Defined.

(** ** The module with its two names bound

    What the task and the flow do once [get_run_logger] and [total_count]
    are bound, in a world where nothing fails.  These runs are not runs of
    the module as written; they show what the two missing names stand in the
    way of. *)

Lemma bind_run {A B} (m : M A) (f : A -> M B) (h o o' : Trace) (a : A) (r : Result B) :
  m h = (o, Ok a) -> f a (h ++ o) = (o', r) -> bind m f h = (o ++ o', r).
Proof. intros Hm Hf. rewrite (bind_ok _ _ _ _ _ Hm), Hf. reflexivity. Qed.

Lemma type_char_calm (clip : string) (c : ascii) (h : Trace) :
  type_char (calm_world clip) c h = (typed c, Ok tt).
Proof.
  unfold typed. destruct (recognised c) eqn:Hc.
  - now rewrite type_char_recognised.
  - now apply type_char_ignored.
Qed.

Lemma input_driver_calm (clip expression : string) (h : Trace) :
  input_driver (calm_world clip) expression h
  = (flat_map typed (Str.chars expression), Ok tt).
Proof.
  unfold input_driver. revert h.
  induction (Str.chars expression) as [| c l IH]; intros h; simpl.
  - reflexivity.
  - apply (bind_run _ _ _ _ _ _ _ (type_char_calm clip c h)). apply IH.
Qed.

Lemma perform_calculation_rpa_calm (clip expression : string) (h : Trace) :
  perform_calculation_rpa (calm_world clip) expression h
  = (rpa_events expression, Ok (Spec.cleaned clip)).
Proof.
  unfold perform_calculation_rpa, rpa_events.
  eapply bind_run; [reflexivity |].
  eapply bind_run; [apply input_driver_calm |].
  rewrite <- cleaning_refines_spec. reflexivity.
Qed.

(** With the logger bound and nothing failing, one execution of the task
    body clears the display, types the expression, presses the evaluate key,
    reads the result and clears the display again, in this order, and returns
    the outcome with status ["success"]. *)
Lemma perform_calculation_fn_steps (total_count : option Value)
    (clip expression : string) (h : Trace) :
  perform_calculation_fn (mkGlobals true total_count) (calm_world clip) expression h
  = ([LogInfo ("Attempting calculation: " ++ expression)%string]
     ++ rpa_events expression
     ++ [Press "c"; Sleep 100; Sleep 500;
         LogInfo ("Successfully calculated " ++ expression ++ " = "
                  ++ Spec.cleaned clip)%string],
     Ok (success_outcome expression (Spec.cleaned clip))).
Proof.
  unfold perform_calculation_fn.
  change (get_run_logger (mkGlobals true total_count)) with (ret tt).
  rewrite bind_ret_l.
  eapply bind_run; [reflexivity |].
  unfold try_except.
  rewrite (bind_run _ _ _ _ _ _ _
             (perform_calculation_rpa_calm clip expression _) eq_refl).
  reflexivity.
Qed.

Example perform_calculation_fn_steps_example :
  events (perform_calculation_fn (mkGlobals true None) (calm_world "2") "1+1" [])
  = [LogInfo "Attempting calculation: 1+1";
     Press "c"; Sleep 100;
     Press "1"; Sleep 100; Press "+"; Sleep 100; Press "1"; Sleep 100;
     Press "="; Sleep 1000;
     Hotkey ["command"; "c"]; Sleep 500; ImportPyperclip; Paste;
     Press "c"; Sleep 100; Sleep 500;
     LogInfo "Successfully calculated 1+1 = 2"]%string.
Proof. reflexivity. Qed.

(** The scenario of the specification in which [pyperclip] is missing: the
    outcome carries the sentinel text and nothing is raised. *)
Example missing_pyperclip_gives_sentinel :
  outcome (perform_calculation_fn (mkGlobals true None) no_pyperclip_world "1+1" [])
  = Ok (success_outcome "1+1" "Result_Read_Error").
Proof. reflexivity. Qed.

Lemma run_task_calm (total_count : option Value) (clip expression : string) (h : Trace) :
  outcome (run_task (perform_calculation (mkGlobals true total_count) (calm_world clip))
             expression h)
  = Ok (success_outcome expression (Spec.cleaned clip)).
Proof.
  unfold run_task. simpl task_retries. simpl run_attempts.
  rewrite (bind_ok _ _ _ _ _ (emit_run _ h)). cbn [outcome snd].
  unfold try_except. simpl task_fn. rewrite perform_calculation_fn_steps.
  reflexivity.
Qed.

Lemma submit_all_calm (total_count : option Value) (clip : string)
    (xs : list string) (h : Trace) :
  exists o,
    submit_all (perform_calculation (mkGlobals true total_count) (calm_world clip))
      xs h
    = (o, Ok (map (fun x => mkFuture x (Ok (success_outcome x (Spec.cleaned clip)))) xs)).
Proof.
  revert h. induction xs as [| x xs IH]; intros h; simpl; [now exists [] |].
  pose proof (run_task_calm total_count clip x h) as Hrun.
  unfold bind, submit, outcome in *.
  destruct (run_task _ x h) as [o r]. simpl in Hrun. subst r.
  destruct (IH (h ++ o)) as [o2 Ho2]. rewrite Ho2.
  eexists. reflexivity.
Qed.

Lemma collect_results_all_ok (w : World) (xs : list string)
    (result : string -> Value) (results : list Value) (h : Trace) :
  collect_results w (map (fun x => mkFuture x (Ok (result x))) xs) results h
  = ([], Ok (results ++ map result xs)).
Proof.
  revert results h. induction xs as [| x xs IH]; intros results h; simpl.
  - now rewrite app_nil_r.
  - etransitivity; [eapply bind_run; [reflexivity | apply IH] |].
    simpl. rewrite <- app_assoc. reflexivity.
Qed.

(** With both names bound and nothing failing, the flow returns the summary
    dictionary of the specification: status ["completed"], the number of
    expressions, and one ["success"] outcome per expression, in order. *)
Lemma flow_returns_summary_when_repaired (clip : string) (calculations : list string)
    (h : Trace) :
  outcome (calculator_automation_stream (repaired_globals calculations)
             (calm_world clip) calculations h)
  = Ok (VDict [("status", VStr "completed");
               ("total_calculations", VInt (Z.of_nat (List.length calculations)));
               ("results",
                VList (map (fun x => success_outcome x (Spec.cleaned clip))
                         calculations))]%string).
Proof.
  unfold calculator_automation_stream.
  erewrite outcome_bind_ok by reflexivity.
  set (h1 := h ++ _).
  set (w := calm_world clip).
  set (t := perform_calculation (repaired_globals calculations) w).
  destruct (submit_all_calm (g_total_count (repaired_globals calculations)) clip
              calculations (h1 ++ [MapCall (task_name t) calculations]))
    as [o Ho].
  assert (Hmap :
    task_map w t calculations h1
    = ([MapCall (task_name t) calculations] ++ o,
       Ok (map (fun x => mkFuture x (Ok (success_outcome x (Spec.cleaned clip))))
             calculations))).
  { unfold task_map. eapply bind_run; [reflexivity | exact Ho]. }
  assert (Hbody :
    exists o',
      dispatch_and_collect (repaired_globals calculations) w calculations [] h1
      = (o',
         Ok (VDict [("status", VStr "completed");
                    ("total_calculations", VInt (Z.of_nat (List.length calculations)));
                    ("results",
                     VList (map (fun x => success_outcome x (Spec.cleaned clip))
                              calculations))]%string))).
  { eexists. unfold dispatch_and_collect.
    eapply bind_run; [exact Hmap |].
    eapply bind_run; [apply collect_results_all_ok |].
    reflexivity. }
  destruct Hbody as [o' Hbody].
  unfold try_finally, try_except, outcome. rewrite Hbody. reflexivity.
Qed.

(** The first scenario of the specification, on the module with both names
    bound. *)
Example flow_scenario_when_repaired :
  outcome (calculator_automation_stream (repaired_globals ["7"; "2*3"]%string)
             (calm_world "7") ["7"; "2*3"]%string [])
  = Ok (VDict [("status", VStr "completed");
               ("total_calculations", VInt 2);
               ("results",
                VList [success_outcome "7" "7"; success_outcome "2*3" "7"])]%string).
Proof. vm_compute. reflexivity. Qed.

(** ** The collecting loop *)

(** When the collecting loop ends normally, it has added exactly one entry
    per future to the list it started with. *)
Lemma collect_results_length (w : World) (futures : list Future) :
  forall results h results',
    outcome (collect_results w futures results h) = Ok results' ->
    List.length results' = List.length results + List.length futures
    /\ firstn (List.length results) results' = results.
Proof.
  induction futures as [| f futures IH]; intros results h results' Hrun.
  - simpl in Hrun. injection Hrun as <-. split; [simpl; lia |].
    apply firstn_all.
  - simpl collect_results in Hrun. unfold bind at 1, outcome in Hrun.
    destruct (try_except _ _ _ h) as [o1 [rs1 | e1]] eqn:Hstep;
      [| discriminate Hrun].
    assert (Hone : exists v, rs1 = results ++ [v]).
    { unfold try_except, bind, future_result, future_kwargs, ret, raise in Hstep.
      destruct (fut_state f) as [v | e]; simpl in Hstep.
      - injection Hstep as _ <-. now exists v.
      - destruct (isinstance_Exception e); simpl in Hstep; [| discriminate Hstep].
        destruct (w_kwargs w _ (fut_arg f)) as [e' | d]; simpl in Hstep;
          [discriminate Hstep |].
        injection Hstep as _ <-. eexists. reflexivity. }
    destruct Hone as [v ->].
    specialize (IH (results ++ [v]) (h ++ o1) results').
    unfold outcome in IH.
    destruct (collect_results w futures (results ++ [v]) (h ++ o1)) as [o2 r2].
    simpl in Hrun, IH. destruct (IH Hrun) as [Hlen Hpre].
    rewrite length_app in Hlen, Hpre. simpl in Hlen, Hpre.
    split; [simpl; lia |].
    apply (f_equal (firstn (List.length results))) in Hpre.
    rewrite firstn_firstn, Nat.min_l in Hpre by lia.
    rewrite Hpre, firstn_app, Nat.sub_diag, firstn_all. simpl.
    now rewrite app_nil_r.
Qed.

(** * Further properties of the code *)

(** ** Calls a computation never makes *)

Section Avoids.

Context {A B : Type} (P : Event -> bool).

Lemma avoids_ret (a : A) : avoids P (ret a).
Proof. intros h. reflexivity. Qed.

Lemma avoids_raise (e : Exn) : avoids P (@raise A e).
Proof. intros h. reflexivity. Qed.

Lemma avoids_bind (m : M A) (f : A -> M B) :
  avoids P m -> (forall a, avoids P (f a)) -> avoids P (bind m f).
Proof.
  intros Hm Hf h. specialize (Hm h). unfold bind, events in *.
  destruct (m h) as [o1 [a | e]]; simpl in *; [| exact Hm].
  specialize (Hf a (h ++ o1)). unfold events in Hf.
  destruct (f a (h ++ o1)) as [o2 r2]. simpl in *.
  now rewrite filter_app, Hm, Hf.
Qed.

Lemma avoids_try_except (m : M A) (catches : Exn -> bool) (handler : Exn -> M A) :
  avoids P m -> (forall e, avoids P (handler e)) ->
  avoids P (try_except m catches handler).
Proof.
  intros Hm Hh h. specialize (Hm h). unfold try_except, events in *.
  destruct (m h) as [o1 [a | e]]; simpl in *; [exact Hm |].
  destruct (catches e); simpl; [| exact Hm].
  specialize (Hh e (h ++ o1)). unfold events in Hh.
  destruct (handler e (h ++ o1)) as [o2 r2]. simpl in *.
  now rewrite filter_app, Hm, Hh.
Qed.

End Avoids.

Lemma avoids_emit (P : Event -> bool) (ev : Event) :
  P ev = false -> avoids P (emit ev).
Proof. intros Hev h. unfold emit, events. simpl. now rewrite Hev. Qed.

Lemma avoids_external (P : Event -> bool) (w : World) (ev : Event) :
  P ev = false -> avoids P (external w ev).
Proof. intros Hev h. unfold external, events. simpl. now rewrite Hev. Qed.

Lemma avoids_paste (P : Event -> bool) (w : World) :
  P Paste = false -> avoids P (pyperclip_paste w).
Proof. intros Hev h. unfold pyperclip_paste, events. simpl. now rewrite Hev. Qed.

Lemma avoids_for_each {A} (P : Event -> bool) (body : A -> M unit) (xs : list A) :
  (forall x, avoids P (body x)) -> avoids P (for_each body xs).
Proof.
  intros Hbody. induction xs as [| x xs IH]; simpl.
  - apply avoids_ret.
  - apply avoids_bind; [apply Hbody | intros _; exact IH].
Qed.

Create HintDb avoids.

#[local] Hint Resolve avoids_ret avoids_raise avoids_for_each : avoids.
#[local] Hint Extern 1 (avoids _ (bind _ _)) => apply avoids_bind; [| intro] : avoids.
#[local] Hint Extern 1 (avoids _ (try_except _ _ _)) =>
  apply avoids_try_except; [| intro] : avoids.
#[local] Hint Extern 1 (avoids _ (emit _)) => apply avoids_emit; reflexivity : avoids.
#[local] Hint Extern 1 (avoids _ (external _ _)) =>
  apply avoids_external; reflexivity : avoids.
#[local] Hint Extern 1 (avoids _ (pyperclip_paste _)) =>
  apply avoids_paste; reflexivity : avoids.

(** The task body never touches the application's process: it neither
    launches it nor asks it to quit. *)
Lemma perform_calculation_fn_avoids_close (g : Globals) (w : World) (expression : string) :
  avoids is_close (perform_calculation_fn g w expression).
Proof.
  assert (Hkey : forall k, avoids is_close (hands_press_key w k)).
  { intros k. unfold hands_press_key, pyautogui_press, time_sleep.
    auto with avoids. }
  assert (Hchar : forall c, avoids is_close (type_char w c)).
  { intros c. unfold type_char, pyautogui_press, time_sleep.
    apply avoids_bind; [| intro; auto with avoids].
    destruct (Str.isdigit c); [auto with avoids |].
    destruct (lookup_key key_mapping (Str.single c)); auto with avoids. }
  assert (Hrpa : avoids is_close (perform_calculation_rpa w expression)).
  { unfold perform_calculation_rpa, input_driver, result_reader, read_clipboard,
      pyautogui_press, pyautogui_hotkey, import_pyperclip, time_sleep, print.
    auto 10 with avoids. }
  unfold perform_calculation_fn, get_run_logger, logger_info, logger_error,
    time_sleep.
  apply avoids_bind; [destruct (g_get_run_logger g); auto with avoids | intro].
  auto 10 with avoids.
Qed.

Lemma run_attempts_avoids (P : Event -> bool) (t : Task) (x : string) (n : nat) :
  (forall name arg, P (TaskAttempt name arg) = false) ->
  (forall d, P (RetryDelay d) = false) ->
  avoids P (task_fn t x) ->
  avoids P (run_attempts t x n).
Proof.
  intros Ha Hd Hfn. induction n as [| n IH]; simpl.
  - apply avoids_bind; [apply avoids_emit, Ha | intro; exact Hfn].
  - apply avoids_bind; [apply avoids_emit, Ha | intro].
    apply avoids_try_except; [exact Hfn | intro].
    apply avoids_bind; [apply avoids_emit, Hd | intro; exact IH].
Qed.

Lemma submit_all_avoids (P : Event -> bool) (t : Task) (xs : list string) :
  (forall x, avoids P (run_task t x)) -> avoids P (submit_all t xs).
Proof.
  intros Hrun. induction xs as [| x xs IH]; simpl; [apply avoids_ret |].
  apply avoids_bind.
  - intros h. specialize (Hrun x h). unfold submit, events in *.
    destruct (run_task t x h). exact Hrun.
  - intro. apply avoids_bind; [exact IH | intro; apply avoids_ret].
Qed.

Lemma collect_results_avoids (P : Event -> bool) (w : World)
    (futures : list Future) (results : list Value) :
  avoids P (collect_results w futures results).
Proof.
  revert results. induction futures as [| f futures IH]; intros results; simpl.
  - apply avoids_ret.
  - apply avoids_bind; [| intro; apply IH].
    apply avoids_try_except.
    + apply avoids_bind; [| intro; apply avoids_ret].
      unfold future_result. destruct (fut_state f); auto with avoids.
    + intro e. apply avoids_bind; [| intro; apply avoids_ret].
      intros h. reflexivity.
Qed.

(** Nothing between the opening of the application and the cleanup asks the
    application to quit. *)
Lemma dispatch_and_collect_avoids_close (g : Globals) (w : World)
    (calculations : list string) (results : list Value) :
  avoids is_close (dispatch_and_collect g w calculations results).
Proof.
  unfold dispatch_and_collect, task_map, return_value, load_total_count.
  apply avoids_bind.
  - apply avoids_bind; [auto with avoids | intro].
    apply submit_all_avoids. intros x. unfold run_task.
    apply run_attempts_avoids; try reflexivity.
    apply perform_calculation_fn_avoids_close.
  - intro. apply avoids_bind; [apply collect_results_avoids | intro].
    apply avoids_bind; [| intro; apply avoids_ret].
    destruct (g_total_count g); auto with avoids.
Qed.

(** ** The flow, from opening to cleanup *)

Lemma close_calculator_run (w : World) (h : Trace) :
  close_calculator w h = (close_events, outcome (close_calculator w h)).
Proof.
  unfold close_calculator, bind, print, emit, subprocess_run, external, outcome.
  simpl. reflexivity.
Qed.

Lemma on_failure_run (w : World) (e : Exn) (h : Trace) :
  on_failure w e h
  = (Stdout ("Automation failed: " ++ exn_str e)%string :: close_events, Raise e).
Proof.
  unfold on_failure, bind, try_except, print, emit, raise.
  cbv beta iota. rewrite close_calculator_run.
  destruct (outcome (close_calculator w _)) as [[] | e']; reflexivity.
Qed.

Lemma guarded_body_run (g : Globals) (w : World) (calculations : list string)
    (h : Trace) :
  let body := dispatch_and_collect g w calculations [] h in
  guarded_body g w calculations h
  = (events body ++ failure_report (outcome body), outcome body).
Proof.
  cbv zeta. unfold guarded_body, try_except, events, outcome.
  destruct (dispatch_and_collect g w calculations [] h) as [o [v | e]]; simpl.
  - now rewrite app_nil_r.
  - destruct (isinstance_Exception e).
    + now rewrite on_failure_run.
    + now rewrite app_nil_r.
Qed.

Lemma flow_run (g : Globals) (w : World) (calculations : list string) (h : Trace) :
  calculator_automation_stream g w calculations h
  = match outcome (open_calculator w h) with
    | Raise e => (events (open_calculator w h), Raise e)
    | Ok _ =>
        let h1 := h ++ events (open_calculator w h) in
        let body := dispatch_and_collect g w calculations [] h1 in
        let report := failure_report (outcome body) in
        (events (open_calculator w h) ++ events body ++ report ++ close_events,
         match outcome (close_calculator w (h1 ++ events body ++ report)) with
         | Raise e' => Raise e'
         | Ok _ => outcome body
         end)
    end.
Proof.
  unfold calculator_automation_stream.
  destruct (open_calculator w h) as [o [[] | e]] eqn:Ho; unfold outcome at 1;
    simpl snd; unfold events at 1 2; simpl fst.
  - rewrite (bind_ok _ _ _ _ _ Ho). cbv zeta.
    change (try_except (dispatch_and_collect g w calculations [])
              isinstance_Exception (on_failure w))
      with (guarded_body g w calculations).
    unfold try_finally, events at 1, outcome at 1.
    rewrite guarded_body_run. cbv zeta.
    rewrite (close_calculator_run w). simpl fst. simpl snd.
    now rewrite <- app_assoc.
  - now rewrite (bind_raise _ _ _ _ _ Ho).
Qed.

(** What the caller of the flow receives: the exception of
    [open_calculator] when the launch fails; otherwise the exception of the
    [close_calculator] call of the [finally] clause when that call fails;
    otherwise exactly what the [try] body returned or raised.  A failure of
    the [close_calculator] call inside the [except] clause never shows. *)
Theorem flow_outcome_precedence (g : Globals) (w : World)
    (calculations : list string) (h : Trace) :
  outcome (calculator_automation_stream g w calculations h)
  = match outcome (open_calculator w h) with
    | Raise e => Raise e
    | Ok _ =>
        let h1 := h ++ events (open_calculator w h) in
        let body := dispatch_and_collect g w calculations [] h1 in
        match outcome (close_calculator w
                         (h1 ++ events body ++ failure_report (outcome body))) with
        | Raise e' => Raise e'
        | Ok _ => outcome body
        end
    end.
Proof.
  rewrite flow_run. destruct (outcome (open_calculator w h)); reflexivity.
Qed.

(** The calls of a flow run: those of [open_calculator]; then, when it
    returned, those of the [try] body, followed by the line
    ["Automation failed: ..."] and a request to quit exactly when the body
    raised something [except Exception] catches, followed by the request to
    quit of the [finally] clause. *)
Theorem flow_events_shape (g : Globals) (w : World)
    (calculations : list string) (h : Trace) :
  events (calculator_automation_stream g w calculations h)
  = events (open_calculator w h)
    ++ match outcome (open_calculator w h) with
       | Raise _ => []
       | Ok _ =>
           let body :=
             dispatch_and_collect g w calculations []
               (h ++ events (open_calculator w h)) in
           events body ++ failure_report (outcome body) ++ close_events
       end.
Proof.
  rewrite flow_run. destruct (outcome (open_calculator w h)); simpl.
  - reflexivity.
  - now rewrite app_nil_r.
Qed.

(** How often a flow run asks the application to quit: never when the
    launch fails; twice when the [try] body raises something that
    [except Exception] catches; once in every other case. *)
Theorem flow_close_count_exact (g : Globals) (w : World)
    (calculations : list string) (h : Trace) :
  close_count (events (calculator_automation_stream g w calculations h))
  = match outcome (open_calculator w h) with
    | Raise _ => 0
    | Ok _ =>
        match outcome (dispatch_and_collect g w calculations []
                         (h ++ events (open_calculator w h))) with
        | Raise e => if isinstance_Exception e then 2 else 1
        | Ok _ => 1
        end
    end.
Proof.
  rewrite flow_run.
  pose proof (open_calculator_events_no_close w h) as Hopen.
  pose proof (dispatch_and_collect_avoids_close g w calculations []
                (h ++ events (open_calculator w h))) as Hbody.
  apply (f_equal (@List.length Event)) in Hbody. simpl in Hbody.
  destruct (outcome (open_calculator w h)); [| exact Hopen].
  cbv zeta. unfold events at 1. simpl fst.
  rewrite !close_count_app, Hopen.
  unfold close_count at 1. rewrite Hbody.
  destruct (outcome (dispatch_and_collect _ _ _ _ _)) as [v | e]; simpl failure_report.
  - reflexivity.
  - destruct (isinstance_Exception e); reflexivity.
Qed.

(** ** The collecting loop, future by future *)

Lemma collect_step_recorded (w : World) (f : Future) (results : list Value)
    (h : Trace) :
  abort_of w h f = None ->
  try_except
    (v <- future_result f;; ret (results ++ [v]))
    isinstance_Exception
    (fun e =>
       kwargs <- future_kwargs w f;;
       ret (results
            ++ [failed_outcome
                  (dict_get_default kwargs "expression" (VStr "Unknown")) e])) h
  = ([], Ok (results ++ [recorded_entry w h f])).
Proof.
  unfold abort_of, recorded_entry, try_except, bind, future_result,
    future_kwargs, ret, raise.
  destruct (fut_state f) as [v | e]; [reflexivity |].
  destruct (isinstance_Exception e); [| discriminate].
  simpl. rewrite app_nil_r.
  destruct (w_kwargs w h (fut_arg f)) as [e' | d]; [discriminate | reflexivity].
Qed.

Lemma collect_step_aborts (w : World) (f : Future) (results : list Value)
    (h : Trace) (e : Exn) :
  abort_of w h f = Some e ->
  try_except
    (v <- future_result f;; ret (results ++ [v]))
    isinstance_Exception
    (fun e =>
       kwargs <- future_kwargs w f;;
       ret (results
            ++ [failed_outcome
                  (dict_get_default kwargs "expression" (VStr "Unknown")) e])) h
  = ([], Raise e).
Proof.
  unfold abort_of, try_except, bind, future_result, future_kwargs, ret, raise.
  destruct (fut_state f) as [v | e0]; [discriminate |].
  destruct (isinstance_Exception e0).
  - simpl. rewrite app_nil_r.
    destruct (w_kwargs w h (fut_arg f)) as [e' | d]; [| discriminate].
    now intros [= ->].
  - now intros [= ->].
Qed.

(** The collecting loop keeps one entry per future, in the order of the
    futures, after the entries it started with: the value of a task that
    returned, and for a task that failed with an [Exception] the failed
    outcome carrying the text of the exception and the expression found in
    the future's [kwargs], or ["Unknown"] when there is none.  It makes no
    call of its own and raises nothing, provided every failure is one that
    [except Exception] catches and every [kwargs] can be read. *)
Theorem collect_results_records_in_order (w : World) (futures : list Future)
    (results : list Value) (h : Trace) :
  (forall f, In f futures -> abort_of w h f = None) ->
  collect_results w futures results h
  = ([], Ok (results ++ map (recorded_entry w h) futures)).
Proof.
  revert results. induction futures as [| f futures IH]; intros results Hall.
  - simpl. now rewrite app_nil_r.
  - simpl collect_results.
    rewrite (bind_ok _ _ _ _ _
               (collect_step_recorded w f results h (Hall f (or_introl eq_refl)))).
    rewrite app_nil_r, IH by (intros f' Hf'; apply Hall; now right).
    simpl. now rewrite <- app_assoc.
Qed.

Lemma collect_results_records_in_order_witness :
  collect_results named_kwargs_world
    [mkFuture "1+1" (Ok (success_outcome "1+1" "2"));
     mkFuture "9/0" (Raise (mkExn (OtherException "ValueError") "boom"))]%string
    [] []
  = ([], Ok [success_outcome "1+1" "2";
             failed_outcome (VStr "9/0")
               (mkExn (OtherException "ValueError") "boom")]%string).
Proof.
  apply (collect_results_records_in_order named_kwargs_world).
  intros f [<- | [<- | []]]; reflexivity.
Defined.

(** The collecting loop stops at the first future whose failure it cannot
    record: a failure that is not an [Exception], or a [kwargs] that cannot
    be read while the entry of a failed task is built.  It raises that
    exception and the entries collected so far are lost. *)
Theorem collect_results_stops_at_first_abort (w : World)
    (before after : list Future) (f : Future) (results : list Value)
    (h : Trace) (e : Exn) :
  (forall f', In f' before -> abort_of w h f' = None) ->
  abort_of w h f = Some e ->
  collect_results w (before ++ f :: after) results h = ([], Raise e).
Proof.
  revert results. induction before as [| f0 before IH]; intros results Hall Hf.
  - simpl app. simpl collect_results.
    now rewrite (bind_raise _ _ _ _ _ (collect_step_aborts w f results h e Hf)).
  - simpl app. simpl collect_results.
    rewrite (bind_ok _ _ _ _ _
               (collect_step_recorded w f0 results h (Hall f0 (or_introl eq_refl)))).
    rewrite app_nil_r, IH by (try exact Hf; intros f' Hf'; apply Hall; now right).
    reflexivity.
Qed.

Lemma collect_results_stops_at_first_abort_witness :
  collect_results (calm_world "2")
    [mkFuture "1+1" (Ok (success_outcome "1+1" "2"));
     mkFuture "2*3" (Raise (mkExn (BaseOnly "KeyboardInterrupt") EmptyString));
     mkFuture "7-1" (Ok (success_outcome "7-1" "6"))]%string
    [] []
  = ([], Raise (mkExn (BaseOnly "KeyboardInterrupt") EmptyString)).
Proof.
  apply (collect_results_stops_at_first_abort (calm_world "2")
           [mkFuture "1+1" (Ok (success_outcome "1+1" "2"))]%string
           [mkFuture "7-1" (Ok (success_outcome "7-1" "6"))]%string
           (mkFuture "2*3" (Raise (mkExn (BaseOnly "KeyboardInterrupt") EmptyString)))).
  - intros f' [<- | []]. reflexivity.
  - reflexivity.
Defined.

(** ** More on the result reader *)

(** The text handed back by the clipboard block never holds a comma: neither
    the cleaned clipboard text nor the sentinel text does. *)
Theorem read_clipboard_result_has_no_comma (w : World) (h : Trace) (s : string) :
  outcome (read_clipboard w h) = Ok s -> contains_comma s = false.
Proof.
  unfold read_clipboard, try_except, bind, import_pyperclip, external,
    pyperclip_paste, print, emit, ret, outcome.
  destruct (w_fault w h ImportPyperclip) as [e |]; cbv beta iota.
  - destruct (isinstance_ImportError e); cbv beta iota; cbn [snd].
    + now intros [= <-].
    + discriminate.
  - destruct (w_fault w (h ++ [ImportPyperclip]) Paste) as [e |]; cbv beta iota.
    + destruct (isinstance_ImportError e); cbv beta iota; cbn [snd].
      * now intros [= <-].
      * discriminate.
    + cbn [snd]. rewrite cleaning_refines_spec. intros Hs.
      injection Hs as <-. apply cleaned_has_no_comma.
Qed.

Lemma read_clipboard_result_has_no_comma_witness :
  outcome (read_clipboard (calm_world " 1,234,567.5 ") []) = Ok "1234567.5"%string
  /\ contains_comma "1234567.5" = false.
Proof.
  split; [reflexivity |].
  apply (read_clipboard_result_has_no_comma (calm_world " 1,234,567.5 ") []).
  reflexivity.
Defined.

(** Only [ImportError] is turned into the sentinel text: any other exception
    raised by importing [pyperclip] or by reading the clipboard leaves the
    clipboard block as it is, and nothing is printed. *)
Theorem read_clipboard_propagates_other_errors (w : World) (h : Trace) (e : Exn) :
  isinstance_ImportError e = false ->
  (w_fault w h ImportPyperclip = Some e ->
   read_clipboard w h = ([ImportPyperclip], Raise e))
  /\ (w_fault w h ImportPyperclip = None ->
      w_fault w (h ++ [ImportPyperclip]) Paste = Some e ->
      read_clipboard w h = ([ImportPyperclip; Paste], Raise e)).
Proof.
  intros Hclass.
  unfold read_clipboard, try_except, bind, import_pyperclip, external,
    pyperclip_paste, print, emit, ret.
  split.
  - intros ->. cbv beta iota. now rewrite Hclass.
  - intros -> Hpaste. cbv beta iota. rewrite Hpaste. cbv beta iota.
    now rewrite Hclass.
Qed.

Lemma read_clipboard_propagates_other_errors_witness :
  read_clipboard broken_clipboard_world []
  = ([ImportPyperclip; Paste],
     Raise (mkExn (OtherException "PyperclipException")
              "could not find a copy/paste mechanism")).
Proof.
  apply (read_clipboard_propagates_other_errors broken_clipboard_world []);
    reflexivity.
Defined.

(** An [ImportError] raised by the paste call itself, after a successful
    import, is caught by the same clause and also gives the sentinel text. *)
Theorem read_clipboard_import_error_from_paste (w : World) (h : Trace) (e : Exn) :
  w_fault w h ImportPyperclip = None ->
  w_fault w (h ++ [ImportPyperclip]) Paste = Some e ->
  isinstance_ImportError e = true ->
  read_clipboard w h
  = ([ImportPyperclip; Paste;
      Stdout "Install 'pyperclip' to read the clipboard result."],
     Ok "Result_Read_Error"%string).
Proof.
  intros Himport Hpaste Hclass.
  unfold read_clipboard, try_except, bind, import_pyperclip, external,
    pyperclip_paste, print, emit, ret.
  rewrite Himport. cbv beta iota. rewrite Hpaste. cbv beta iota.
  now rewrite Hclass.
Qed.

Lemma read_clipboard_import_error_from_paste_witness :
  read_clipboard paste_import_error_world []
  = ([ImportPyperclip; Paste;
      Stdout "Install 'pyperclip' to read the clipboard result."],
     Ok "Result_Read_Error"%string).
Proof.
  apply (read_clipboard_import_error_from_paste paste_import_error_world []
           (mkExn ImportError "No module named 'AppKit'")); reflexivity.
Defined.

Lemma drop_spaces_head (c : ascii) (l : list ascii) :
  Str.isspace c = false -> Spec.drop_spaces (c :: l) = c :: l.
Proof. intros Hc. simpl. now rewrite Hc. Qed.

Lemma without_commas_clean (s : string) :
  contains_comma s = false -> Spec.without_commas s = s.
Proof.
  unfold contains_comma, Spec.without_commas.
  induction s as [| c s IH]; [reflexivity |].
  cbn [Str.chars existsb filter]. intros H.
  apply orb_false_iff in H as [Hc Hs].
  rewrite Ascii.eqb_sym, Hc. cbn [negb Str.of_chars]. now rewrite IH.
Qed.

Lemma drop_spaces_rev_clean (l : list ascii) (d : ascii) :
  l <> [] ->
  Str.isspace (last l d) = false ->
  rev (Spec.drop_spaces (rev l)) = l.
Proof.
  intros Hne Hlast.
  pose proof (app_removelast_last d Hne) as E.
  set (z := last l d) in *. set (l0 := removelast l) in *.
  rewrite E, rev_app_distr.
  change (rev [z] ++ rev l0) with (z :: rev l0).
  rewrite (drop_spaces_head z (rev l0) Hlast).
  change (z :: rev l0) with ([z] ++ rev l0).
  now rewrite rev_app_distr, rev_involutive.
Qed.

Lemma without_surrounding_whitespace_clean (s : string) :
  no_surrounding_whitespace s = true -> Spec.without_surrounding_whitespace s = s.
Proof.
  unfold no_surrounding_whitespace, Spec.without_surrounding_whitespace.
  destruct (Str.chars s) as [| c l] eqn:Hs.
  - intros _. cbn [Spec.drop_spaces rev Str.of_chars].
    now rewrite <- (of_chars_chars s), Hs.
  - intros H. apply andb_true_iff in H as [Hc Hl].
    apply negb_true_iff in Hc, Hl.
    rewrite (drop_spaces_head c l Hc).
    assert (Hlast : last (c :: l) c = last l c) by (destruct l; reflexivity).
    rewrite (drop_spaces_rev_clean (c :: l) c); [| discriminate | now rewrite Hlast].
    rewrite <- Hs. apply of_chars_chars.
Qed.

(** A clipboard text that holds no comma and neither starts nor ends with
    whitespace passes through the cleaning of line 64 unchanged. *)
Theorem cleaning_keeps_clean_text (s : string) :
  contains_comma s = false ->
  no_surrounding_whitespace s = true ->
  Str.replace (Str.strip s) "," EmptyString = s.
Proof.
  intros Hcomma Hspace.
  rewrite cleaning_refines_spec. unfold Spec.cleaned.
  rewrite (without_surrounding_whitespace_clean s Hspace).
  now apply without_commas_clean.
Qed.

Lemma cleaning_keeps_clean_text_witness :
  contains_comma "-12.5 e3" = false
  /\ no_surrounding_whitespace "-12.5 e3" = true
  /\ Str.replace (Str.strip "-12.5 e3") "," EmptyString = "-12.5 e3"%string.
Proof.
  split; [reflexivity |]. split; [reflexivity |].
  apply (cleaning_keeps_clean_text "-12.5 e3"); reflexivity.
Defined.

(** ** More on the input driver and on one calculation *)

(** Typing a concatenation is typing its first part and then its second
    part: the driver keeps nothing from one character to the next, and a
    failure while typing the first part leaves the second part untyped. *)
Theorem input_driver_append (w : World) (s1 s2 : string) (h : Trace) :
  input_driver w (s1 ++ s2)%string h
  = (input_driver w s1;; input_driver w s2) h.
Proof.
  unfold input_driver. rewrite chars_append. apply for_each_app.
Qed.

Lemma sleep_total_app (t1 t2 : Trace) :
  sleep_total (t1 ++ t2) = (sleep_total t1 + sleep_total t2)%N.
Proof.
  induction t1 as [| ev t1 IH]; [reflexivity |].
  destruct ev; simpl; rewrite IH; lia.
Qed.

Lemma chars_length (s : string) : List.length (Str.chars s) = String.length s.
Proof. induction s as [| c s IH]; simpl; [reflexivity | now rewrite IH]. Qed.

(** Every character costs one pause of 0.1 s, recognised or not. *)
Lemma for_each_type_char_sleeps (w : World) (l : list ascii) :
  forall h o,
    for_each (type_char w) l h = (o, Ok tt) ->
    sleep_total o = (100 * N.of_nat (List.length l))%N.
Proof.
  induction l as [| c l IH]; intros h o Hrun.
  - simpl in Hrun. injection Hrun as <-. reflexivity.
  - simpl for_each in Hrun.
    assert (Hstep : (exists o1, type_char w c h = (o1, Ok tt)
                                /\ sleep_total o1 = 100%N)
            \/ (exists o1 e, type_char w c h = (o1, Raise e))).
    { destruct (recognised c) eqn:Hc.
      - rewrite (type_char_recognised w c h Hc).
        destruct (w_fault w h (key_of c)) as [e |].
        + right. eauto.
        + left. eexists. split; reflexivity.
      - rewrite (type_char_ignored w c h Hc).
        left. eexists. split; reflexivity. }
    destruct Hstep as [[o1 [Hstep Hsleep]] | (o1 & e & Hstep)].
    + rewrite (bind_ok _ _ _ _ _ Hstep) in Hrun.
      destruct (for_each (type_char w) l (h ++ o1)) as [o2 r2] eqn:Hrest.
      unfold events, outcome in Hrun. simpl in Hrun.
      injection Hrun as <- ->.
      rewrite sleep_total_app, Hsleep, (IH _ _ Hrest).
      change (List.length (c :: l)) with (S (List.length l)). lia.
    + rewrite (bind_raise _ _ _ _ _ Hstep) in Hrun. discriminate Hrun.
Qed.

(** The clipboard block presses no key and takes no pause. *)
Lemma read_clipboard_quiet (w : World) (h : Trace) :
  key_events (events (read_clipboard w h)) = []
  /\ sleep_total (events (read_clipboard w h)) = 0%N.
Proof.
  unfold read_clipboard, try_except, bind, import_pyperclip, external,
    pyperclip_paste, print, emit, ret, events.
  destruct (w_fault w h ImportPyperclip) as [e |]; cbv beta iota.
  - destruct (isinstance_ImportError e); split; reflexivity.
  - destruct (w_fault w (h ++ [ImportPyperclip]) Paste) as [e |]; cbv beta iota.
    + destruct (isinstance_ImportError e); split; reflexivity.
    + split; reflexivity.
Qed.

Lemma bind_returns {A B} (m : M A) (f : A -> M B) (h : Trace) (b : B) :
  outcome (bind m f h) = Ok b ->
  exists o a,
    m h = (o, Ok a)
    /\ bind m f h = (o ++ events (f a (h ++ o)), Ok b)
    /\ outcome (f a (h ++ o)) = Ok b.
Proof.
  unfold bind, outcome, events. destruct (m h) as [o [a | e]]; [| discriminate].
  destruct (f a (h ++ o)) as [o2 r2] eqn:Hf. simpl. intros ->.
  exists o, a. rewrite Hf. split; [reflexivity |]. split; reflexivity.
Qed.

Lemma external_returns (w : World) (ev : Event) (h o : Trace) (a : unit) :
  external w ev h = (o, Ok a) -> o = [ev].
Proof. unfold external. now intros [= <- _]. Qed.

Lemma hands_press_key_returns (w : World) (key : string) (h o : Trace) (a : unit) :
  hands_press_key w key h = (o, Ok a) -> o = [Press key; Sleep 100].
Proof.
  unfold hands_press_key, bind, pyautogui_press, external, time_sleep, emit.
  destruct (w_fault w h (Press key)); [discriminate |]. now intros [= <- _].
Qed.

(** The shape of a calculation that returns: the display is cleared, the
    driver types the whole expression, the evaluate key and the copy shortcut
    go through, and the clipboard block hands back the text. *)
Lemma perform_calculation_rpa_returns (w : World) (expression : string)
    (h : Trace) (s : string) :
  outcome (perform_calculation_rpa w expression h) = Ok s ->
  exists typing reading hr,
    input_driver w expression (h ++ [Press "c"; Sleep 100]) = (typing, Ok tt)
    /\ read_clipboard w hr = (reading, Ok s)
    /\ events (perform_calculation_rpa w expression h)
       = [Press "c"; Sleep 100] ++ typing
         ++ [Press "="; Sleep 1000; Hotkey ["command"; "c"]%string; Sleep 500]
         ++ reading.
Proof.
  intros Hrun. unfold perform_calculation_rpa, result_reader in *.
  apply bind_returns in Hrun as (o1 & [] & H1 & -> & Hrun).
  apply hands_press_key_returns in H1 as ->.
  apply bind_returns in Hrun as (typing & [] & Htyping & -> & Hrun).
  apply bind_returns in Hrun as (o3 & [] & H3 & -> & Hrun).
  apply external_returns in H3 as ->.
  apply bind_returns in Hrun as (o4 & [] & H4 & -> & Hrun).
  unfold time_sleep, emit in H4. injection H4 as <-.
  apply bind_returns in Hrun as (o5 & [] & H5 & -> & Hrun).
  apply external_returns in H5 as ->.
  apply bind_returns in Hrun as (o6 & [] & H6 & -> & Hrun).
  unfold time_sleep, emit in H6. injection H6 as <-.
  match type of Hrun with
  | outcome (read_clipboard w ?hh) = _ =>
      destruct (read_clipboard w hh) as [reading r] eqn:Hreading
  end.
  unfold outcome in Hrun. simpl in Hrun. subst r.
  exists typing, reading. eexists.
  split; [exact Htyping |]. split; [exact Hreading |].
  unfold events. simpl. reflexivity.
Qed.

(** A calculation that returns has pressed exactly these keys, in this
    order: [c], then one key for each digit and operator of the expression,
    then [=].  (The key [c] of the copy shortcut goes through
    [pyautogui.hotkey], not through a key press.) *)
Theorem perform_calculation_rpa_keys (w : World) (expression : string)
    (h : Trace) (s : string) :
  outcome (perform_calculation_rpa w expression h) = Ok s ->
  key_events (events (perform_calculation_rpa w expression h))
  = Press "c" :: map key_of (filter recognised (Str.chars expression))
    ++ [Press "="].
Proof.
  intros Hrun.
  destruct (perform_calculation_rpa_returns w expression h s Hrun)
    as (typing & reading & hr & Htyping & Hreading & ->).
  destruct (for_each_type_char_keys w (Str.chars expression)
              (h ++ [Press "c"; Sleep 100])) as (_ & Hkeys & _).
  unfold input_driver in Htyping. rewrite Htyping in Hkeys.
  specialize (Hkeys eq_refl). unfold events in Hkeys. simpl fst in Hkeys.
  destruct (read_clipboard_quiet w hr) as [Hquiet _].
  rewrite Hreading in Hquiet. unfold events in Hquiet. simpl fst in Hquiet.
  rewrite !key_events_app, Hkeys, Hquiet. reflexivity.
Qed.

Lemma perform_calculation_rpa_keys_witness :
  key_events (events (perform_calculation_rpa (calm_world "7") "1 + 2x3" []))
  = [Press "c"; Press "1"; Press "+"; Press "2"; Press "3"; Press "="]%string.
Proof.
  apply (perform_calculation_rpa_keys (calm_world "7") "1 + 2x3" [] "7").
  reflexivity.
Defined.

(** A calculation that returns has paused for 1.6 s plus 0.1 s per character
    of the expression, ignored characters included. *)
Theorem perform_calculation_rpa_pauses (w : World) (expression : string)
    (h : Trace) (s : string) :
  outcome (perform_calculation_rpa w expression h) = Ok s ->
  sleep_total (events (perform_calculation_rpa w expression h))
  = (1600 + 100 * N.of_nat (String.length expression))%N.
Proof.
  intros Hrun.
  destruct (perform_calculation_rpa_returns w expression h s Hrun)
    as (typing & reading & hr & Htyping & Hreading & ->).
  unfold input_driver in Htyping.
  pose proof (for_each_type_char_sleeps w _ _ _ Htyping) as Hsleeps.
  destruct (read_clipboard_quiet w hr) as [_ Hquiet].
  rewrite Hreading in Hquiet. unfold events in Hquiet. simpl fst in Hquiet.
  rewrite !sleep_total_app, Hsleeps, Hquiet, chars_length. simpl sleep_total. lia.
Qed.

Lemma perform_calculation_rpa_pauses_witness :
  sleep_total (events (perform_calculation_rpa (calm_world "7") "1 + 2x3" []))
  = 2300%N.
Proof.
  apply (perform_calculation_rpa_pauses (calm_world "7") "1 + 2x3" [] "7").
  reflexivity.
Defined.

(** ** More on the task body *)

Lemma try_except_returns {A} (m : M A) (catches : Exn -> bool)
    (handler : Exn -> M A) (h : Trace) (a : A) :
  outcome (try_except m catches handler h) = Ok a ->
  outcome (m h) = Ok a
  \/ exists o e, m h = (o, Raise e) /\ outcome (handler e (h ++ o)) = Ok a.
Proof.
  unfold try_except, outcome. destruct (m h) as [o [a' | e]]; simpl.
  - now left.
  - destruct (catches e); [| discriminate].
    destruct (handler e (h ++ o)) as [o2 r2] eqn:Hh. simpl. intros ->.
    right. exists o, e. now rewrite Hh.
Qed.

(** Whenever the task body returns, the logger name was bound and the value
    is the outcome with status ["success"] for the very expression it was
    given, carrying the text a run of [perform_calculation_rpa] returned. The
    body never returns a failed outcome: its failures are exceptions. *)
Theorem perform_calculation_fn_returns_own_expression (g : Globals) (w : World)
    (expression : string) (h : Trace) (v : Value) :
  outcome (perform_calculation_fn g w expression h) = Ok v ->
  g_get_run_logger g = true
  /\ exists result hr,
      outcome (perform_calculation_rpa w expression hr) = Ok result
      /\ v = success_outcome expression result.
Proof.
  intros Hrun. unfold perform_calculation_fn in Hrun.
  apply bind_returns in Hrun as (o0 & [] & Hlogger & _ & Hrun).
  assert (Hbound : g_get_run_logger g = true).
  { unfold get_run_logger in Hlogger.
    destruct (g_get_run_logger g); [reflexivity | discriminate Hlogger]. }
  split; [exact Hbound |].
  apply bind_returns in Hrun as (o1 & [] & _ & _ & Hrun).
  apply try_except_returns in Hrun as [Hrun | (o & e & _ & Hhandler)].
  - apply bind_returns in Hrun as (o2 & result & Hrpa & _ & Hrun).
    apply bind_returns in Hrun as (o3 & [] & _ & _ & Hrun).
    apply bind_returns in Hrun as (o4 & [] & _ & _ & Hrun).
    apply bind_returns in Hrun as (o5 & [] & _ & _ & Hrun).
    injection Hrun as <-.
    exists result. eexists. split; [| reflexivity].
    unfold outcome. rewrite Hrpa. reflexivity.
  - apply bind_returns in Hhandler as (o2 & [] & _ & _ & Hraise).
    discriminate Hraise.
Qed.

Lemma perform_calculation_fn_returns_own_expression_witness :
  exists result,
    outcome (perform_calculation_fn (mkGlobals true None) (calm_world "6") "2*3" [])
    = Ok (success_outcome "2*3" result).
Proof.
  destruct (perform_calculation_fn_returns_own_expression (mkGlobals true None)
              (calm_world "6") "2*3" [] (success_outcome "2*3" "6") eq_refl)
    as (_ & result & _ & _ & Hv).
  exists result. rewrite <- Hv. reflexivity.
Defined.

(** With the logger name bound, an exception raised while the calculation
    is driven leaves the task body unchanged: the body logs the attempt, makes
    the calls the calculation made, logs ["Failed calculation ..."] with the
    text of the exception when [except Exception] catches it, and raises that
    same exception.  The display is not cleared again. *)
Theorem perform_calculation_fn_reraises (g : Globals) (w : World)
    (expression : string) (h o : Trace) (e : Exn) :
  g_get_run_logger g = true ->
  perform_calculation_rpa w expression
    (h ++ [LogInfo ("Attempting calculation: " ++ expression)%string])
  = (o, Raise e) ->
  perform_calculation_fn g w expression h
  = ([LogInfo ("Attempting calculation: " ++ expression)%string] ++ o
     ++ (if isinstance_Exception e
         then [LogError ("Failed calculation " ++ expression ++ ": "
                         ++ exn_str e)%string]
         else []),
     Raise e).
Proof.
  intros Hbound Hrpa. unfold perform_calculation_fn, get_run_logger.
  rewrite Hbound, bind_ret_l.
  eapply bind_run; [reflexivity |].
  unfold try_except. rewrite (bind_raise _ _ _ _ _ Hrpa).
  destruct (isinstance_Exception e); [reflexivity | now rewrite app_nil_r].
Qed.

Lemma perform_calculation_fn_reraises_witness :
  perform_calculation_fn (mkGlobals true None) stuck_keyboard_world "1+1" []
  = ([LogInfo "Attempting calculation: 1+1"; Press "c";
      LogError "Failed calculation 1+1: fail-safe triggered"]%string,
     Raise (mkExn (OtherException "FailSafeException") "fail-safe triggered")).
Proof.
  apply (perform_calculation_fn_reraises (mkGlobals true None)
           stuck_keyboard_world "1+1" [] [Press "c"]
           (mkExn (OtherException "FailSafeException") "fail-safe triggered"));
    reflexivity.
Defined.

(** With the logger name bound, when the calculation returned a text but the
    key press that clears the display afterwards fails, the task body raises
    the exception of that key press: the text already read is not returned. *)
Theorem perform_calculation_fn_loses_result_on_final_clear (g : Globals)
    (w : World) (expression : string) (h o : Trace) (result : string) (e : Exn) :
  g_get_run_logger g = true ->
  perform_calculation_rpa w expression
    (h ++ [LogInfo ("Attempting calculation: " ++ expression)%string])
  = (o, Ok result) ->
  w_fault w ((h ++ [LogInfo ("Attempting calculation: " ++ expression)%string]) ++ o)
    (Press "c") = Some e ->
  outcome (perform_calculation_fn g w expression h) = Raise e.
Proof.
  intros Hbound Hrpa Hclear. unfold perform_calculation_fn, get_run_logger.
  rewrite Hbound, bind_ret_l.
  erewrite outcome_bind_ok by reflexivity.
  assert (Hbody :
    (result0 <- perform_calculation_rpa w expression;;
     hands_press_key w "c";;
     time_sleep 500;;
     logger_info ("Successfully calculated " ++ expression ++ " = " ++ result0)%string;;
     ret (success_outcome expression result0))
      (h ++ [LogInfo ("Attempting calculation: " ++ expression)%string])
    = (o ++ [Press "c"], Raise e)).
  { eapply bind_run; [exact Hrpa |].
    apply bind_raise. unfold hands_press_key. apply bind_raise.
    unfold pyautogui_press, external. now rewrite Hclear. }
  unfold try_except, outcome. rewrite Hbody.
  destruct (isinstance_Exception e); reflexivity.
Qed.

Lemma perform_calculation_fn_loses_result_on_final_clear_witness :
  outcome (perform_calculation_rpa clear_fails_after_reading_world "1+1"
             [LogInfo "Attempting calculation: 1+1"%string])
  = Ok "2"%string
  /\ outcome (perform_calculation_fn (mkGlobals true None)
                clear_fails_after_reading_world "1+1" [])
     = Raise (mkExn (OtherException "FailSafeException") "fail-safe triggered").
Proof.
  split; [reflexivity |].
  apply (perform_calculation_fn_loses_result_on_final_clear (mkGlobals true None)
           clear_fails_after_reading_world "1+1" []
           (events (perform_calculation_rpa clear_fails_after_reading_world "1+1"
                      [LogInfo "Attempting calculation: 1+1"%string]))
           "2"); reflexivity.
Defined.

(** When every key press and the copy shortcut go through and [pyperclip]
    cannot be imported, the calculation returns the sentinel text. *)
Lemma perform_calculation_rpa_sentinel (w : World) (expression : string) (h : Trace) :
  (forall h' key, w_fault w h' (Press key) = None) ->
  (forall h' keys, w_fault w h' (Hotkey keys) = None) ->
  (forall h', exists e,
      w_fault w h' ImportPyperclip = Some e /\ isinstance_ImportError e = true) ->
  exists o,
    perform_calculation_rpa w expression h = (o, Ok "Result_Read_Error"%string).
Proof.
  intros Hpress Hhotkey Himport.
  assert (Hkey : forall key h',
             hands_press_key w key h' = ([Press key; Sleep 100], Ok tt)).
  { intros key h'.
    unfold hands_press_key, bind, pyautogui_press, external, time_sleep, emit.
    now rewrite Hpress. }
  destruct (input_driver w expression (h ++ [Press "c"; Sleep 100]))
    as [typing r] eqn:Htyping.
  assert (Hr : r = Ok tt).
  { destruct (for_each_type_char_keys w (Str.chars expression)
                (h ++ [Press "c"; Sleep 100])) as (_ & _ & Hok).
    specialize (Hok Hpress). unfold input_driver in Htyping.
    rewrite Htyping in Hok. exact Hok. }
  subst r.
  set (h2 := (h ++ [Press "c"; Sleep 100]) ++ typing) in *.
  set (h3 := (((h2 ++ [Press "="]) ++ [Sleep 1000])
              ++ [Hotkey ["command"; "c"]%string]) ++ [Sleep 500]).
  destruct (Himport h3) as (e & He & Hclass).
  eexists. unfold perform_calculation_rpa, result_reader.
  eapply bind_run; [apply Hkey |].
  eapply bind_run; [exact Htyping |].
  eapply bind_run;
    [unfold pyautogui_press, external; rewrite Hpress; reflexivity |].
  eapply bind_run; [reflexivity |].
  eapply bind_run;
    [unfold pyautogui_hotkey, external; rewrite Hhotkey; reflexivity |].
  eapply bind_run; [reflexivity |].
  fold h2. fold h3.
  unfold read_clipboard, try_except, bind, import_pyperclip, external,
    print, emit, ret.
  rewrite He. cbv beta iota. rewrite Hclass. reflexivity.
Qed.

(** With the logger name bound, when every key press and the copy shortcut
    go through but [pyperclip] cannot be imported, the task body returns an
    outcome with status ["success"] whose result is the sentinel text: the
    failure to read the result is not reported as a failure of the task. *)
Theorem sentinel_reported_as_success (g : Globals) (w : World)
    (expression : string) (h : Trace) :
  g_get_run_logger g = true ->
  (forall h' key, w_fault w h' (Press key) = None) ->
  (forall h' keys, w_fault w h' (Hotkey keys) = None) ->
  (forall h', exists e,
      w_fault w h' ImportPyperclip = Some e /\ isinstance_ImportError e = true) ->
  outcome (perform_calculation_fn g w expression h)
  = Ok (success_outcome expression "Result_Read_Error").
Proof.
  intros Hbound Hpress Hhotkey Himport.
  destruct (perform_calculation_rpa_sentinel w expression
              (h ++ [LogInfo ("Attempting calculation: " ++ expression)%string])
              Hpress Hhotkey Himport) as [o Hrpa].
  unfold perform_calculation_fn, get_run_logger.
  rewrite Hbound, bind_ret_l.
  erewrite outcome_bind_ok by reflexivity.
  assert (Hbody :
    exists o',
      (result <- perform_calculation_rpa w expression;;
       hands_press_key w "c";;
       time_sleep 500;;
       logger_info ("Successfully calculated " ++ expression ++ " = " ++ result)%string;;
       ret (success_outcome expression result))
        (h ++ [LogInfo ("Attempting calculation: " ++ expression)%string])
      = (o', Ok (success_outcome expression "Result_Read_Error"))).
  { eexists. eapply bind_run; [exact Hrpa |].
    eapply bind_run.
    - unfold hands_press_key, bind, pyautogui_press, external, time_sleep, emit.
      rewrite Hpress. reflexivity.
    - reflexivity. }
  destruct Hbody as [o' Hbody].
  unfold try_except, outcome. rewrite Hbody. reflexivity.
Qed.

Lemma sentinel_reported_as_success_witness :
  outcome (perform_calculation_fn (mkGlobals true None) no_pyperclip_world "12/4" [])
  = Ok (success_outcome "12/4" "Result_Read_Error").
Proof.
  apply (sentinel_reported_as_success (mkGlobals true None) no_pyperclip_world
           "12/4" []); try reflexivity.
  intros h'. eexists. split; reflexivity.
Defined.

(** ** The module as written, task run by task run *)















